(** * Capabilities directory: authorization and registration workflow

    A shallow embedding of [src/app.py].  The module-level globals
    [capabilities] and [pending_registration_requests] form the mutable
    state; every handler is a computation in a state-and-exception monad
    whose state survives a raised exception, as it does in Python. *)

From Stdlib Require Import ZArith Ascii String List Bool Lia.
From stdpp Require Import base decidable option list gmap strings.
Import ListNotations.

Local Open Scope Z_scope.
Local Open Scope string_scope.
Local Open Scope list_scope.

(** ** Python built-ins used by the handlers

    A [string] stands for a Python [str] through its UTF-8 encoding, so
    equality, [in], [split] on [$] and the ASCII test read the same on
    both sides. *)

Module Py.

(** What [str.lower] does to a [str] of ASCII characters only: the 26
    capital letters are mapped to their small counterparts, every other
    character is kept. *)
Definition lower_char (c : ascii) : ascii :=
  let n := N_of_ascii c in
  if ((65 <=? n) && (n <=? 90))%N then ascii_of_N (n + 32) else c.

Fixpoint lower_ascii (s : string) : string :=
  match s with
  | EmptyString => EmptyString
  | String c rest => String (lower_char c) (lower_ascii rest)
  end.

(** [x in xs] for a list of strings. *)
Definition contains (x : string) (xs : list string) : bool :=
  existsb (String.eqb x) xs.

(** [xs.remove(x)]: drops the first element equal to [x]; [None] stands
    for the [ValueError] raised when there is none. *)
Fixpoint list_remove {A} `{EqDecision A} (x : A) (xs : list A) : option (list A) :=
  match xs with
  | [] => None
  | y :: ys => if decide (y = x) then Some ys
               else match list_remove x ys with
                    | Some ys' => Some (y :: ys')
                    | None => None
                    end
  end.

(** [s.split(sep, maxsplit)] for a one-character separator. *)
Fixpoint split (sep : ascii) (maxsplit : nat) (s : string) : list string :=
  match s with
  | EmptyString => [EmptyString]
  | String c rest =>
      match maxsplit with
      | O => [s]
      | S m =>
          if Ascii.eqb c sep then EmptyString :: split sep m rest
          else match split sep maxsplit rest with
               | [] => [String c EmptyString]
               | piece :: pieces => String c piece :: pieces
               end
      end
  end.

(** White space as [int] sees it in a [str] of ASCII characters only:
    tab to carriage return, and the blank. *)
Definition is_space (c : ascii) : bool :=
  let n := N_of_ascii c in
  (((9 <=? n) && (n <=? 13)) || (n =? 32))%N.

Definition digit_value (c : ascii) : option Z :=
  let n := N_of_ascii c in
  if ((48 <=? n) && (n <=? 57))%N then Some (Z.of_N n - 48) else None.

Fixpoint lstrip (s : string) : string :=
  match s with
  | String c rest => if is_space c then lstrip rest else s
  | EmptyString => EmptyString
  end.

Fixpoint all_space (s : string) : bool :=
  match s with
  | String c rest => is_space c && all_space rest
  | EmptyString => true
  end.

(** Decimal digits, where one underscore may stand between two digits,
    followed by white space only.  [acc] is the value read so far and
    [after_digit] tells whether the previous character was a digit. *)
Fixpoint digits (acc : Z) (after_digit : bool) (s : string) : option Z :=
  match s with
  | EmptyString => if after_digit then Some acc else None
  | String c rest =>
      match digit_value c with
      | Some d => digits (10 * acc + d) true rest
      | None =>
          if after_digit then
            if Ascii.eqb c "_" then
              match rest with
              | String c' _ =>
                  match digit_value c' with
                  | Some _ => digits acc false rest
                  | None => None
                  end
              | EmptyString => None
              end
            else if all_space s then Some acc else None
          else None
      end
  end.

Fixpoint count_digits (s : string) : nat :=
  match s with
  | EmptyString => O
  | String c rest =>
      match digit_value c with
      | Some _ => S (count_digits rest)
      | None => count_digits rest
      end
  end.

(** The default of [sys.get_int_max_str_digits()]. *)
Definition MAX_STR_DIGITS : nat := 4300.

(** What [int(s)] answers for a [str] of ASCII characters only, in base
    ten and with the default cap on the number of digits; [None] stands
    for the [ValueError]. *)
Definition int_ascii (s : string) : option Z :=
  if (MAX_STR_DIGITS <? count_digits s)%nat then None
  else
    match lstrip s with
    | String "-" rest => option_map Z.opp (digits 0 false rest)
    | String "+" rest => digits 0 false rest
    | body => digits 0 false body
    end.

(** [bytes.hex()]. *)
Definition hex_digit (n : N) : ascii :=
  if (n <? 10)%N then ascii_of_N (48 + n) else ascii_of_N (87 + n).

Fixpoint hex (bs : string) : string :=
  match bs with
  | EmptyString => EmptyString
  | String b rest =>
      let n := N_of_ascii b in
      String (hex_digit (n / 16)) (String (hex_digit (n mod 16)) (hex rest))
  end.

Fixpoint is_ascii (s : string) : bool :=
  match s with
  | EmptyString => true
  | String c rest => (N_of_ascii c <? 128)%N && is_ascii rest
  end.

End Py.

(** [str.lower] and [int] follow the Unicode tables and the settings of
    the interpreter.  They are taken as they are: two functions, known
    only on ASCII text (for [int], of at most 4300 characters, which no
    cap on the digits touches), where they are the two functions above.
    Every statement of the section below holds for whatever they do
    elsewhere, so for the interpreter the program runs on. *)
Class Python : Type := {
  lower : string -> string;
  int : string -> option Z;
  lower_ascii_text :
    forall s : string, Py.is_ascii s = true -> lower s = Py.lower_ascii s;
  int_ascii_text :
    forall s : string,
      Py.is_ascii s = true -> (String.length s <= 4300)%nat -> int s = Py.int_ascii s
}.

(** ** Exceptions and the handler monad *)

Inductive Exception : Type :=
| HTTPException (status_code : Z) (detail : string)
| ValueError
| OverflowError
| TypeError
| KeyError.

Inductive Result (A : Type) : Type :=
| Return (a : A)
| Raise (e : Exception).
Arguments Return {A} a.
Arguments Raise {A} e.

#[global] Instance Exception_eq_dec : EqDecision Exception.
Proof. solve_decision. Defined.

(** ** Data model *)

(** An entry of the [capabilities] dict. *)
Record Capability : Type := mkCapability {
  description : string;
  practice_area : string;
  skill_levels : list string;
  certifications : list string;
  industry_verticals : list string;
  capacity : Z;
  consultants : list string
}.

(** An entry of [pending_registration_requests]. *)
Record PendingRequest : Type := mkPendingRequest {
  req_capability_name : string;
  req_email : string;
  req_requested_by : string;
  req_created_at : string
}.

#[global] Instance PendingRequest_eq_dec : EqDecision PendingRequest.
Proof. solve_decision. Defined.

(** The session projection stored under [SESSION_USER_KEY]. *)
Record User : Type := mkUser {
  user_username : string;
  user_email : string;
  user_role : string;
  user_practice_areas : list string
}.

(** A request carries the session of its client. *)
Record Request : Type := mkRequest { session : option User }.

(** The two module-level globals. *)
Record State : Type := mkState {
  capabilities : gmap string Capability;
  pending_registration_requests : list PendingRequest
}.

Definition M (A : Type) : Type := State -> Result A * State.

#[global] Instance M_ret : MRet M := fun A a st => (Return a, st).

#[global] Instance M_bind : MBind M := fun A B f m st =>
  match m st with
  | (Return a, st') => f a st'
  | (Raise e, st') => (Raise e, st')
  end.

Definition raise {A} (e : Exception) : M A := fun st => (Raise e, st).
Definition get_capabilities_dict : M (gmap string Capability) :=
  fun st => (Return (capabilities st), st).
Definition get_pending : M (list PendingRequest) :=
  fun st => (Return (pending_registration_requests st), st).
Definition set_pending (l : list PendingRequest) : M unit :=
  fun st => (Return tt, mkState (capabilities st) l).

(** In-place update of the [consultants] list of the capability stored
    under [name]; the capability object is shared with the dict. *)
Definition with_consultants (c : Capability) (l : list string) : Capability :=
  mkCapability (description c) (practice_area c) (skill_levels c)
    (certifications c) (industry_verticals c) (capacity c) l.

Definition set_consultants (name : string) (l : list string) : M unit :=
  fun st =>
    (Return tt,
     mkState (alter (fun c => with_consultants c l) name (capabilities st))
             (pending_registration_requests st)).

Section Model.

Context {interpreter : Python}.

(** ** Helpers of the handlers *)

Definition get_authenticated_user (request : Request) : M User :=
  match session request with
  | None => raise (HTTPException 401 "Please log in first")
  | Some user => mret user
  end.

Definition require_practice_lead (request : Request) : M User :=
  user ← get_authenticated_user request;
  if negb (user_role user =? "practice_lead")
  then raise (HTTPException 403 "Practice lead permissions are required")
  else mret user.

Definition has_practice_area_permission (user : User) (capability_name : string) : M bool :=
  caps ← get_capabilities_dict;
  match caps !! capability_name with
  | None => mret false
  | Some capability =>
      if negb (user_role user =? "practice_lead") then mret false
      else
        let permitted_areas := user_practice_areas user in
        if Py.contains "*" permitted_areas then mret true
        else mret (Py.contains (practice_area capability) permitted_areas)
  end.

Definition pending_matches (capability_name email : string) (request : PendingRequest) : bool :=
  (req_capability_name request =? capability_name)
  && (lower (req_email request) =? lower email).

Definition find_pending_request (capability_name email : string) : M (option PendingRequest) :=
  pending ← get_pending;
  mret (find (pending_matches capability_name email) pending).

Definition same_email (email consultant : string) : bool :=
  lower consultant =? lower email.

Definition is_consultant_registered (capability : Capability) (email : string) : bool :=
  existsb (same_email email) (consultants capability).

(** [remove_consultant]: the loop stops at the first roster entry that
    matches case-insensitively and calls [list.remove] with it. *)
Definition remove_consultant (name : string) (capability : Capability) (email : string) : M unit :=
  match find (same_email email) (consultants capability) with
  | Some consultant =>
      match Py.list_remove consultant (consultants capability) with
      | Some l => set_consultants name l
      | None => raise ValueError
      end
  | None =>
      raise (HTTPException 400 "Consultant is not registered for this capability")
  end.

(** ** Handlers *)

(** [POST /capabilities/{capability_name}/register].  [now] is the value
    of [datetime.now(timezone.utc).isoformat()] at the call. *)
Definition register_for_capability (request : Request) (capability_name email now : string)
  : M string :=
  authenticated_user ← get_authenticated_user request;
  caps ← get_capabilities_dict;
  match caps !! capability_name with
  | None => raise (HTTPException 404 "Capability not found")
  | Some capability =>
      if is_consultant_registered capability email
      then raise (HTTPException 400 "Consultant is already registered for this capability")
      else if user_role authenticated_user =? "consultant" then
        if negb (lower (user_email authenticated_user) =? lower email)
        then raise (HTTPException 403 "Consultants can only request registration for themselves")
        else
          found ← find_pending_request capability_name email;
          match found with
          | Some _ => raise (HTTPException 400 "A pending registration request already exists")
          | None =>
              pending ← get_pending;
              set_pending
                (pending ++ [mkPendingRequest capability_name email
                               (user_username authenticated_user) now]);;
              mret ("Registration request submitted for " +:+ email +:+ " on "
                    +:+ capability_name +:+ ". A practice lead must approve it.")
          end
      else if user_role authenticated_user =? "practice_lead" then
        allowed ← has_practice_area_permission authenticated_user capability_name;
        if negb allowed
        then raise (HTTPException 403
                      "You do not have permissions for this capability's practice area")
        else
          set_consultants capability_name (consultants capability ++ [email]);;
          mret ("Registered " +:+ email +:+ " for " +:+ capability_name)
      else raise (HTTPException 403 "Unsupported user role")
  end.

(** [DELETE /capabilities/{capability_name}/unregister]. *)
Definition unregister_from_capability (request : Request) (capability_name email : string)
  : M string :=
  authenticated_user ← require_practice_lead request;
  caps ← get_capabilities_dict;
  match caps !! capability_name with
  | None => raise (HTTPException 404 "Capability not found")
  | Some capability =>
      allowed ← has_practice_area_permission authenticated_user capability_name;
      if negb allowed
      then raise (HTTPException 403
                    "You do not have permissions for this capability's practice area")
      else
        remove_consultant capability_name capability email;;
        mret ("Unregistered " +:+ email +:+ " from " +:+ capability_name)
  end.

(** [pending_registration_requests.remove(pending_request)]. *)
Definition remove_pending (pending_request : PendingRequest) : M unit :=
  pending ← get_pending;
  match Py.list_remove pending_request pending with
  | Some l => set_pending l
  | None => raise ValueError
  end.

(** [POST /registration-requests/{capability_name}/approve]. *)
Definition approve_registration_request (request : Request) (capability_name email : string)
  : M string :=
  authenticated_user ← require_practice_lead request;
  caps ← get_capabilities_dict;
  match caps !! capability_name with
  | None => raise (HTTPException 404 "Capability not found")
  | Some _ =>
      allowed ← has_practice_area_permission authenticated_user capability_name;
      if negb allowed
      then raise (HTTPException 403
                    "You do not have permissions for this capability's practice area")
      else
        found ← find_pending_request capability_name email;
        match found with
        | None => raise (HTTPException 404 "Pending registration request not found")
        | Some pending_request =>
            caps ← get_capabilities_dict;
            match caps !! capability_name with
            | None => raise KeyError
            | Some capability =>
                (if negb (is_consultant_registered capability email)
                 then set_consultants capability_name (consultants capability ++ [email])
                 else mret tt);;
                remove_pending pending_request;;
                mret ("Approved registration for " +:+ email +:+ " on "
                      +:+ capability_name)
            end
        end
  end.

(** [POST /registration-requests/{capability_name}/reject]. *)
Definition reject_registration_request (request : Request) (capability_name email : string)
  : M string :=
  authenticated_user ← require_practice_lead request;
  caps ← get_capabilities_dict;
  match caps !! capability_name with
  | None => raise (HTTPException 404 "Capability not found")
  | Some _ =>
      allowed ← has_practice_area_permission authenticated_user capability_name;
      if negb allowed
      then raise (HTTPException 403
                    "You do not have permissions for this capability's practice area")
      else
        found ← find_pending_request capability_name email;
        match found with
        | None => raise (HTTPException 404 "Pending registration request not found")
        | Some pending_request =>
            remove_pending pending_request;;
            mret ("Rejected registration request for " +:+ email +:+ " on "
                  +:+ capability_name)
        end
  end.

(** ** Authentication *)

(** A record of the credentials file, with the defaults of the [get]
    calls filled in: a missing [username] or [password_hash] is the empty
    string, a missing [practice_areas] the empty list. *)
Record UserRecord : Type := mkUserRecord {
  cred_username : string;
  cred_email : string;
  cred_role : string;
  cred_practice_areas : list string;
  cred_password_hash : string
}.

Record LoginRequest : Type := mkLoginRequest {
  login_username : string;
  login_password : string
}.

(** Bounds of the C types [int] and [long] (64 bits) of the interpreter. *)
Definition INT_MAX : Z := 2147483647.
Definition LONG_MIN : Z := -9223372036854775808.

Section Auth.

(** The key-derivation primitive of [hashlib]: PBKDF2 with HMAC-SHA256 of
    a password and a salt for a number of rounds, as raw bytes. *)
Variable pbkdf2_sha256 : string -> string -> Z -> string.

(** [hashlib.pbkdf2_hmac("sha256", ...)] reads the round count as a C
    [long], refuses one below one with [ValueError] and one above
    [INT_MAX] with [OverflowError]. *)
Definition pbkdf2_hmac (password salt : string) (iterations : Z) : Result string :=
  if (iterations <? LONG_MIN)%Z then Raise OverflowError
  else if (iterations <? 1)%Z then Raise ValueError
  else if (INT_MAX <? iterations)%Z then Raise OverflowError
  else Return (pbkdf2_sha256 password salt iterations).

(** [hmac.compare_digest] on two [str]: both must be ASCII. *)
Definition compare_digest (a b : string) : Result bool :=
  if Py.is_ascii a && Py.is_ascii b then Return (a =? b) else Raise TypeError.

Definition verify_password (stored_hash provided_password : string) : Result bool :=
  match Py.split "$" 3 stored_hash with
  | [algorithm; iterations; salt; digest] =>
      if negb (algorithm =? "pbkdf2_sha256")
      then Raise (HTTPException 500 "Unsupported password hash algorithm")
      else
        match int iterations with
        | None => Raise ValueError
        | Some n =>
            match pbkdf2_hmac provided_password salt n with
            | Raise e => Raise e
            | Return derived => compare_digest (Py.hex derived) digest
            end
        end
  | _ => Raise (HTTPException 500 "Invalid credential configuration")
  end.

(** [users] is what [load_user_credentials] reads from the file. *)
Definition get_user_by_username (users : list UserRecord) (username : string)
  : option UserRecord :=
  find (fun user => lower (cred_username user) =? lower username) users.

(** [POST /auth/login]: the result and the session of the client after
    the call. *)
Definition login (users : list UserRecord) (request : Request) (payload : LoginRequest)
  : Result User * Request :=
  let reject := (Raise (HTTPException 401 "Invalid username or password"), request) in
  match get_user_by_username users (login_username payload) with
  | None => reject
  | Some user =>
      match verify_password (cred_password_hash user) (login_password payload) with
      | Raise e => (Raise e, request)
      | Return false => reject
      | Return true =>
          let session_user :=
            mkUser (cred_username user) (cred_email user) (cred_role user)
                   (cred_practice_areas user) in
          (Return session_user, mkRequest (Some session_user))
      end
  end.

End Auth.

(** ** The seed data and the reachable states *)

Definition cloud_architecture : Capability :=
  mkCapability
    "Design and implement scalable cloud solutions using AWS, Azure, and GCP"
    "Technology"
    ["Emerging"; "Proficient"; "Advanced"; "Expert"]
    ["AWS Solutions Architect"; "Azure Architect Expert"]
    ["Healthcare"; "Financial Services"; "Retail"]
    40
    ["alice.smith@slalom.com"; "bob.johnson@slalom.com"].

Definition digital_strategy : Capability :=
  mkCapability
    "Digital transformation planning and strategic technology roadmaps"
    "Strategy"
    ["Emerging"; "Proficient"; "Advanced"; "Expert"]
    ["Digital Transformation Certificate"; "Agile Certified Practitioner"]
    ["Healthcare"; "Financial Services"; "Government"]
    25
    ["liam.anderson@slalom.com"; "noah.martinez@slalom.com"].

Definition seed : list (string * Capability) :=
  [ ("Cloud Architecture", cloud_architecture);
    ("Data Analytics",
     mkCapability
       "Advanced data analysis, visualization, and machine learning solutions"
       "Technology"
       ["Emerging"; "Proficient"; "Advanced"; "Expert"]
       ["Tableau Desktop Specialist"; "Power BI Expert"; "Google Analytics"]
       ["Retail"; "Healthcare"; "Manufacturing"]
       35
       ["emma.davis@slalom.com"; "sophia.wilson@slalom.com"]);
    ("DevOps Engineering",
     mkCapability
       "CI/CD pipeline design, infrastructure automation, and containerization"
       "Technology"
       ["Emerging"; "Proficient"; "Advanced"; "Expert"]
       ["Docker Certified Associate"; "Kubernetes Admin"; "Jenkins Certified"]
       ["Technology"; "Financial Services"]
       30
       ["john.brown@slalom.com"; "olivia.taylor@slalom.com"]);
    ("Digital Strategy", digital_strategy);
    ("Change Management",
     mkCapability
       "Organizational change leadership and adoption strategies"
       "Operations"
       ["Emerging"; "Proficient"; "Advanced"; "Expert"]
       ["Prosci Certified"; "Lean Six Sigma Black Belt"]
       ["Healthcare"; "Manufacturing"; "Government"]
       20
       ["ava.garcia@slalom.com"; "mia.rodriguez@slalom.com"]);
    ("UX/UI Design",
     mkCapability
       "User experience design and digital product innovation"
       "Technology"
       ["Emerging"; "Proficient"; "Advanced"; "Expert"]
       ["Adobe Certified Expert"; "Google UX Design Certificate"]
       ["Retail"; "Healthcare"; "Technology"]
       30
       ["amelia.lee@slalom.com"; "harper.white@slalom.com"]);
    ("Cybersecurity",
     mkCapability
       "Information security strategy, risk assessment, and compliance"
       "Technology"
       ["Emerging"; "Proficient"; "Advanced"; "Expert"]
       ["CISSP"; "CISM"; "CompTIA Security+"]
       ["Financial Services"; "Healthcare"; "Government"]
       25
       ["ella.clark@slalom.com"; "scarlett.lewis@slalom.com"]);
    ("Business Intelligence",
     mkCapability
       "Enterprise reporting, data warehousing, and business analytics"
       "Technology"
       ["Emerging"; "Proficient"; "Advanced"; "Expert"]
       ["Microsoft BI Certification"; "Qlik Sense Certified"]
       ["Retail"; "Manufacturing"; "Financial Services"]
       35
       ["james.walker@slalom.com"; "benjamin.hall@slalom.com"]);
    ("Agile Coaching",
     mkCapability
       "Agile transformation and team coaching for scaled delivery"
       "Operations"
       ["Emerging"; "Proficient"; "Advanced"; "Expert"]
       ["Certified Scrum Master"; "SAFe Agilist"; "ICAgile Certified"]
       ["Technology"; "Financial Services"; "Healthcare"]
       20
       ["charlotte.young@slalom.com"; "henry.king@slalom.com"]) ].

(** The globals as they are when the module has been loaded. *)
Definition initial_state : State :=
  mkState (list_to_map seed) [].

(** One call of a state-changing endpoint. *)
Inductive Call : Type :=
| CallRegister (request : Request) (capability_name email now : string)
| CallUnregister (request : Request) (capability_name email : string)
| CallApprove (request : Request) (capability_name email : string)
| CallReject (request : Request) (capability_name email : string).

Definition run_call (c : Call) (st : State) : State :=
  match c with
  | CallRegister request capability_name email now =>
      snd (register_for_capability request capability_name email now st)
  | CallUnregister request capability_name email =>
      snd (unregister_from_capability request capability_name email st)
  | CallApprove request capability_name email =>
      snd (approve_registration_request request capability_name email st)
  | CallReject request capability_name email =>
      snd (reject_registration_request request capability_name email st)
  end.

(** The states the process can be in: the seed, followed by any sequence
    of calls by any clients. *)
Inductive reachable : State -> Prop :=
| reachable_init : reachable initial_state
| reachable_step st c : reachable st -> reachable (run_call c st).

(** ** Vocabulary of the specification *)

(** [E] is in the roster of the capability named [C], compared without
    regard to case. *)
Definition registered (st : State) (C E : string) : Prop :=
  exists capability,
    capabilities st !! C = Some capability /\
    is_consultant_registered capability E = true.

(** A pending request for the pair is in the list. *)
Definition pending (st : State) (C E : string) : Prop :=
  exists request,
    In request (pending_registration_requests st) /\
    pending_matches C E request = true.

(** The identity of a pending request. *)
Definition request_key (request : PendingRequest) : string * string :=
  (req_capability_name request, lower (req_email request)).

Definition pending_unique (st : State) : Prop :=
  NoDup (map request_key (pending_registration_requests st)).

Definition never_registered_and_pending (st : State) : Prop :=
  forall C E, ~ (registered st C E /\ pending st C E).

(** The list without its first element that satisfies [p]. *)
Fixpoint remove_first {A} (p : A -> bool) (l : list A) : list A :=
  match l with
  | [] => []
  | x :: rest => if p x then rest else x :: remove_first p rest
  end.

(** The answer of [has_practice_area_permission] in a state. *)
Definition can_administer (st : State) (u : User) (n : string) : bool :=
  match has_practice_area_permission u n st with
  | (Return b, _) => b
  | _ => false
  end.

(** What the checks shared by approve and reject answer in a state:
    the authentication, the role, the capability, the practice area and
    the pending request, in this order. *)
Definition authorization_outcome (request : Request) (C E : string) (st : State)
  : Result (Capability * PendingRequest) :=
  match session request with
  | None => Raise (HTTPException 401 "Please log in first")
  | Some u =>
      if user_role u =? "practice_lead" then
        match capabilities st !! C with
        | None => Raise (HTTPException 404 "Capability not found")
        | Some capability =>
            if can_administer st u C then
              match find (pending_matches C E) (pending_registration_requests st) with
              | None => Raise (HTTPException 404 "Pending registration request not found")
              | Some pending_request => Return (capability, pending_request)
              end
            else Raise (HTTPException 403
                          "You do not have permissions for this capability's practice area")
        end
      else Raise (HTTPException 403 "Practice lead permissions are required")
  end.

(** What approve makes of the roster. *)
Definition approved_roster (capability : Capability) (E : string) : list string :=
  if is_consultant_registered capability E then consultants capability
  else consultants capability ++ [E].

(** No email is twice in a roster, compared without regard to case. *)
Definition roster_unique (capability : Capability) : Prop :=
  NoDup (map lower (consultants capability)).

(** Every pending request names a capability of the registry. *)
Definition pending_capabilities_exist (st : State) : Prop :=
  forall request,
    In request (pending_registration_requests st) ->
    exists capability, capabilities st !! req_capability_name request = Some capability.

(** The invariant of the pending list. *)
Definition pending_well_formed (st : State) : Prop :=
  pending_unique st /\ pending_capabilities_exist st.

(** A direct registration by a practice lead for a pair that has a
    pending request. *)
Definition lead_registers_pending (c : Call) (st : State) : Prop :=
  exists (u : User) (C E now : string),
    c = CallRegister (mkRequest (Some u)) C E now /\
    user_role u = "practice_lead" /\
    pending st C E.

(** Decision procedures for [registered] and [pending]. *)
Definition registeredb (st : State) (C E : string) : bool :=
  match capabilities st !! C with
  | Some capability => is_consultant_registered capability E
  | None => false
  end.

Definition pendingb (st : State) (C E : string) : bool :=
  existsb (pending_matches C E) (pending_registration_requests st).

(** ** Sample callers and states *)

Definition dana : User :=
  mkUser "dana" "dana@slalom.com" "consultant" [].

Definition tina : User :=
  mkUser "tina" "tina@slalom.com" "practice_lead" ["Technology"].

Definition omar : User :=
  mkUser "omar" "omar@slalom.com" "practice_lead" ["*"].

(** Dana has asked to join Cloud Architecture. *)
Definition dana_requested : State :=
  run_call
    (CallRegister (mkRequest (Some dana)) "Cloud Architecture" "dana@slalom.com"
       "2025-01-01T09:00:00+00:00")
    initial_state.

(** Tina has registered Dana directly, without a request. *)
Definition dana_registered : State :=
  run_call
    (CallRegister (mkRequest (Some tina)) "Cloud Architecture" "dana@slalom.com"
       "2025-01-01T10:00:00+00:00")
    initial_state.

(** Dana has asked, then Tina has registered her directly. *)
Definition dana_registered_too : State :=
  run_call
    (CallRegister (mkRequest (Some tina)) "Cloud Architecture" "dana@slalom.com"
       "2025-01-01T10:00:00+00:00")
    dana_requested.

(** ** Vocabulary for stored password hashes *)

(** Four [$]-separated fields, the first of which is the known tag. *)
Definition four_fields_known_tag (stored_hash : string) : Prop :=
  exists iterations salt digest : string,
    Py.split "$" 3 stored_hash = ["pbkdf2_sha256"; iterations; salt; digest].

(** Fewer than four fields. *)
Definition too_few_fields (stored_hash : string) : Prop :=
  forall algorithm iterations salt digest : string,
    Py.split "$" 3 stored_hash <> [algorithm; iterations; salt; digest].

(** The claim about wrong passwords, for a given notion of a well-formed
    stored hash: whenever the user exists, the hash is well-formed and the
    password does not verify, [login] answers 401. *)
Definition wrong_password_is_unauthorized (well_formed : string -> Prop) : Prop :=
  forall (pbkdf2_sha256 : string -> string -> Z -> string)
         (users : list UserRecord) (request : Request) (payload : LoginRequest)
         (user : UserRecord),
    get_user_by_username users (login_username payload) = Some user ->
    well_formed (cred_password_hash user) ->
    verify_password pbkdf2_sha256 (cred_password_hash user) (login_password payload)
    <> Return true ->
    fst (login pbkdf2_sha256 users request payload)
    = Raise (HTTPException 401 "Invalid username or password").

(** A credential whose round count is not a number. *)
Definition tina_bad_rounds : UserRecord :=
  mkUserRecord "tina" "tina@slalom.com" "practice_lead" ["Technology"]
    "pbkdf2_sha256$abc$c2FsdA$00ff".

(** A credential with a usable hash. *)
Definition tina_credential : UserRecord :=
  mkUserRecord "tina" "tina@slalom.com" "practice_lead" ["Technology"]
    "pbkdf2_sha256$260000$c2FsdA$00ff".

(** A stand-in for the key derivation in examples: it answers one zero
    byte, whose hex form is not the digest stored above. *)
Definition sample_kdf (password salt : string) (iterations : Z) : string :=
  String zero EmptyString.

(** ** The remaining endpoints *)

(** [POST /auth/logout]: the message and the session after the call. *)
Definition logout (request : Request) : string * Request :=
  ("Logged out", mkRequest None).

(** [GET /auth/me]: the [authenticated] flag and the [user] field. *)
Definition who_am_i (request : Request) : bool * option User :=
  match session request with
  | None => (false, None)
  | Some user => (true, Some user)
  end.

(** [GET /capabilities]. *)
Definition get_capabilities : M (gmap string Capability) := get_capabilities_dict.

(** [GET /registration-requests].  For a capability that is not in the
    dict, [capabilities.get(name, {}).get("practice_area")] is [None],
    which is in no list of practice areas. *)
Definition get_registration_requests (request : Request) : M (list PendingRequest) :=
  authenticated_user ← require_practice_lead request;
  pending ← get_pending;
  if Py.contains "*" (user_practice_areas authenticated_user) then mret pending
  else
    caps ← get_capabilities_dict;
    mret (List.filter
            (fun req =>
               match caps !! req_capability_name req with
               | Some capability =>
                   Py.contains (practice_area capability)
                     (user_practice_areas authenticated_user)
               | None => false
               end)
            pending).

(** What [load_user_credentials] finds: no file, or a JSON object with or
    without a [users] entry. *)
Inductive CredentialsFile : Type :=
| FileAbsent
| FilePayload (users : option (list UserRecord)).

Definition load_user_credentials (file : CredentialsFile) : list UserRecord :=
  match file with
  | FileAbsent => []
  | FilePayload None => []
  | FilePayload (Some users) => users
  end.

(** ** Vocabulary for single calls *)

Definition call_session (c : Call) : option User :=
  match c with
  | CallRegister request _ _ _ | CallUnregister request _ _
  | CallApprove request _ _ | CallReject request _ _ => session request
  end.

Definition call_capability (c : Call) : string :=
  match c with
  | CallRegister _ C _ _ | CallUnregister _ C _
  | CallApprove _ C _ | CallReject _ C _ => C
  end.

Definition call_email (c : Call) : string :=
  match c with
  | CallRegister _ _ E _ | CallUnregister _ _ E
  | CallApprove _ _ E | CallReject _ _ E => E
  end.

(** The exception a call ends with, if any. *)
Definition call_exception (c : Call) (st : State) : option Exception :=
  let exception_of {A} (r : Result A) : option Exception :=
    match r with Return _ => None | Raise e => Some e end in
  match c with
  | CallRegister request C E now =>
      exception_of (fst (register_for_capability request C E now st))
  | CallUnregister request C E =>
      exception_of (fst (unregister_from_capability request C E st))
  | CallApprove request C E =>
      exception_of (fst (approve_registration_request request C E st))
  | CallReject request C E =>
      exception_of (fst (reject_registration_request request C E st))
  end.

(** The statuses the handlers raise on purpose. *)
Definition is_client_error (e : Exception) : bool :=
  match e with
  | HTTPException status _ =>
      (status =? 400)%Z || (status =? 401)%Z || (status =? 403)%Z || (status =? 404)%Z
  | _ => false
  end.

(** The calls that go through, with what they make of the state. *)
Inductive accepted : Call -> State -> State -> Prop :=
| accepted_submit (u : User) (C E now : string) (st : State) (capability : Capability) :
    user_role u = "consultant" ->
    lower (user_email u) = lower E ->
    capabilities st !! C = Some capability ->
    is_consultant_registered capability E = false ->
    find (pending_matches C E) (pending_registration_requests st) = None ->
    accepted (CallRegister (mkRequest (Some u)) C E now) st
      (mkState (capabilities st)
         (pending_registration_requests st
          ++ [mkPendingRequest C E (user_username u) now]))
| accepted_register (u : User) (C E now : string) (st : State) (capability : Capability) :
    can_administer st u C = true ->
    capabilities st !! C = Some capability ->
    is_consultant_registered capability E = false ->
    accepted (CallRegister (mkRequest (Some u)) C E now) st
      (mkState (<[C := with_consultants capability (consultants capability ++ [E])]>
                  (capabilities st))
         (pending_registration_requests st))
| accepted_unregister (u : User) (C E : string) (st : State) (capability : Capability) :
    can_administer st u C = true ->
    capabilities st !! C = Some capability ->
    is_consultant_registered capability E = true ->
    accepted (CallUnregister (mkRequest (Some u)) C E) st
      (mkState (<[C := with_consultants capability
                          (remove_first (same_email E) (consultants capability))]>
                  (capabilities st))
         (pending_registration_requests st))
| accepted_approve (u : User) (C E : string) (st : State) (capability : Capability)
    (pending_request : PendingRequest) :
    can_administer st u C = true ->
    capabilities st !! C = Some capability ->
    find (pending_matches C E) (pending_registration_requests st) = Some pending_request ->
    accepted (CallApprove (mkRequest (Some u)) C E) st
      (mkState (<[C := with_consultants capability (approved_roster capability E)]>
                  (capabilities st))
         (remove_first (pending_matches C E) (pending_registration_requests st)))
| accepted_reject (u : User) (C E : string) (st : State)
    (pending_request : PendingRequest) :
    can_administer st u C = true ->
    find (pending_matches C E) (pending_registration_requests st) = Some pending_request ->
    accepted (CallReject (mkRequest (Some u)) C E) st
      (mkState (capabilities st)
         (remove_first (pending_matches C E) (pending_registration_requests st))).

(** The number of [$] signs of a stored hash. *)
Fixpoint count_dollars (s : string) : nat :=
  match s with
  | EmptyString => O
  | String c rest => if Ascii.eqb c "$" then S (count_dollars rest) else count_dollars rest
  end.

(** A successful login makes this session of a credential. *)
Definition session_of (user : UserRecord) : User :=
  mkUser (cred_username user) (cred_email user) (cred_role user)
    (cred_practice_areas user).

(** A credential whose stored digest is the hex form of what
    [sample_kdf] derives. *)
Definition tina_matching : UserRecord :=
  mkUserRecord "tina" "tina@slalom.com" "practice_lead" ["Technology"]
    "pbkdf2_sha256$260000$c2FsdA$00".

(** Dana has asked to join Cloud Architecture and Digital Strategy. *)
Definition dana_requested_twice : State :=
  run_call
    (CallRegister (mkRequest (Some dana)) "Digital Strategy" "dana@slalom.com"
       "2025-01-01T09:30:00+00:00")
    dana_requested.

End Model.

(** An interpreter that agrees with Python on ASCII text and leaves every
    other byte alone.  It serves to run the handlers on the ASCII data of
    the examples at the end, and nowhere else. *)
Definition ascii_python : Python :=
  {| lower := Py.lower_ascii;
     int := Py.int_ascii;
     lower_ascii_text := fun _ _ => eq_refl;
     int_ascii_text := fun _ _ _ => eq_refl |}.

(** Unfolds the plumbing of the monad. *)
Ltac run :=
  repeat (unfold mbind, M_bind, mret, M_ret, raise, get_capabilities_dict,
                 get_pending, set_pending, set_consultants; simpl).

(** * Proofs *)

Section Proofs.

Context {interpreter : Python}.

(** ** Basic facts about the built-ins *)

Lemma contains_In (x : string) (xs : list string) :
  Py.contains x xs = true <-> In x xs.
Proof.
  unfold Py.contains. rewrite existsb_exists. split.
  - intros [y [Hy Heq]]. apply String.eqb_eq in Heq. now subst.
  - intros H. exists x. split; [assumption | apply String.eqb_refl].
Qed.

Lemma list_remove_first {A} `{EqDecision A} (p : A -> bool) (x : A) (l : list A) :
  find p l = Some x -> Py.list_remove x l = Some (remove_first p l).
Proof.
  induction l as [|y ys IH]; simpl; [discriminate|].
  destruct (p y) eqn:Hp.
  - intros [= ->]. now rewrite decide_True.
  - intros Hfind. destruct (decide (y = x)) as [->|Hne].
    + apply find_some in Hfind. destruct Hfind as [_ Hx]. congruence.
    + now rewrite (IH Hfind).
Qed.

Lemma remove_first_In {A} (p : A -> bool) (l : list A) (x : A) :
  In x (remove_first p l) -> In x l.
Proof.
  induction l as [|y ys IH]; simpl; [tauto|].
  destruct (p y); simpl; intuition.
Qed.

Lemma remove_first_length {A} (p : A -> bool) (l : list A) (x : A) :
  find p l = Some x -> S (length (remove_first p l)) = length l.
Proof.
  induction l as [|y ys IH]; simpl; [discriminate|].
  destruct (p y); [reflexivity|]. intros H. simpl. now rewrite (IH H).
Qed.

Lemma find_none_iff {A} (p : A -> bool) (l : list A) :
  find p l = None <-> forall x, In x l -> p x = false.
Proof.
  split; [apply find_none|].
  induction l as [|y ys IH]; simpl; [reflexivity|].
  intros H. rewrite (H y) by now left. apply IH. intros x Hx. apply H. now right.
Qed.

Lemma find_is_some {A} (p : A -> bool) (l : list A) (x : A) :
  In x l -> p x = true -> exists y, find p l = Some y.
Proof.
  intros Hin Hp. destruct (find p l) as [y|] eqn:Hf; [eauto|].
  rewrite (find_none _ _ Hf _ Hin) in Hp. discriminate.
Qed.

Lemma has_practice_area_permission_pure (u : User) (n : string) (st : State) :
  exists b, has_practice_area_permission u n st = (Return b, st).
Proof.
  unfold has_practice_area_permission. run.
  destruct (capabilities st !! n); [|eauto].
  destruct (negb _); [eauto|]. destruct (Py.contains "*" _); eauto.
Qed.

Lemma has_practice_area_permission_run (u : User) (n : string) (st : State) :
  has_practice_area_permission u n st = (Return (can_administer st u n), st).
Proof.
  unfold can_administer.
  destruct (has_practice_area_permission_pure u n st) as [b ->]. reflexivity.
Qed.

(** C2: [has_practice_area_permission] returns, leaves the state as it
    was, says no for an unknown capability and for a caller who is not a
    practice lead, and otherwise says yes exactly when the caller's
    practice areas hold the wildcard or the practice area of the
    capability. *)
Theorem has_practice_area_permission_spec (u : User) (n : string) (st : State) :
  exists b,
    has_practice_area_permission u n st = (Return b, st) /\
    ((capabilities st !! n = None \/ user_role u <> "practice_lead") -> b = false) /\
    (forall capability,
        capabilities st !! n = Some capability ->
        user_role u = "practice_lead" ->
        (b = true <->
         In "*" (user_practice_areas u) \/
         In (practice_area capability) (user_practice_areas u))).
Proof.
  unfold has_practice_area_permission. run.
  destruct (capabilities st !! n) as [capability|] eqn:Hcap.
  - destruct (user_role u =? "practice_lead") eqn:Hrole; simpl.
    + apply String.eqb_eq in Hrole.
      destruct (Py.contains "*" (user_practice_areas u)) eqn:Hstar.
      * exists true. split; [reflexivity|]. split.
        -- intros [?|?]; congruence.
        -- intros c _ _. split; [|reflexivity]. intros _. left. now apply contains_In.
      * eexists. split; [reflexivity|]. split.
        -- intros [?|?]; congruence.
        -- intros c [= <-] _. rewrite contains_In. split; [tauto|].
           intros [H|H]; [|assumption]. apply contains_In in H. congruence.
    + apply String.eqb_neq in Hrole. exists false. split; [reflexivity|].
      split; [reflexivity|]. intros c _ H. contradiction.
  - exists false. split; [reflexivity|]. split; [reflexivity|]. intros c H. discriminate.
Qed.

Lemma can_administer_true (st : State) (u : User) (n : string) :
  can_administer st u n = true ->
  user_role u = "practice_lead" /\ exists capability, capabilities st !! n = Some capability.
Proof.
  unfold can_administer, has_practice_area_permission. run.
  destruct (capabilities st !! n) as [capability|]; [|discriminate].
  destruct (user_role u =? "practice_lead") eqn:Hrole; simpl; [|discriminate].
  intros _. apply String.eqb_eq in Hrole. eauto.
Qed.

Lemma practice_lead_not_consultant (u : User) :
  user_role u = "practice_lead" -> (user_role u =? "consultant") = false.
Proof. intros ->. reflexivity. Qed.

(** ** Register *)

(** C5: a consultant who asks to register somebody else, for an existing
    capability whose roster does not hold that email, is refused with 403
    and neither global changes. *)
Theorem consultant_register_other_forbidden
    (u : User) (C E now : string) (st : State) (capability : Capability) :
  capabilities st !! C = Some capability ->
  is_consultant_registered capability E = false ->
  user_role u = "consultant" ->
  lower (user_email u) <> lower E ->
  register_for_capability (mkRequest (Some u)) C E now st
  = (Raise (HTTPException 403 "Consultants can only request registration for themselves"),
     st).
Proof.
  intros Hcap Hreg Hrole Hne.
  unfold register_for_capability, get_authenticated_user. run.
  rewrite Hcap, Hreg, Hrole. simpl.
  apply String.eqb_neq in Hne. rewrite Hne. reflexivity.
Qed.

(** C10: the roster check comes first, so a consultant who asks to
    register somebody else whose email is already in the roster gets the
    400 of a duplicate registration, not the 403; nothing changes. *)
Theorem consultant_register_other_registered
    (u : User) (C E now : string) (st : State) (capability : Capability) :
  capabilities st !! C = Some capability ->
  is_consultant_registered capability E = true ->
  user_role u = "consultant" ->
  lower (user_email u) <> lower E ->
  register_for_capability (mkRequest (Some u)) C E now st
  = (Raise (HTTPException 400 "Consultant is already registered for this capability"),
     st).
Proof.
  intros Hcap Hreg _ _.
  unfold register_for_capability, get_authenticated_user. run.
  rewrite Hcap, Hreg. reflexivity.
Qed.

Lemma is_consultant_registered_app (capability : Capability) (l : list string) (E : string) :
  is_consultant_registered (with_consultants capability (l ++ [E])) E = true.
Proof.
  unfold is_consultant_registered. simpl. rewrite existsb_app. simpl.
  unfold same_email at 2. rewrite String.eqb_refl. now rewrite orb_true_r.
Qed.

(** C4: when a practice lead's [register] succeeds, the email is in the
    roster, the roster is one longer, and a second [register] of the same
    pair by any logged-in caller is refused as a duplicate and changes
    nothing. *)
Theorem lead_register_then_conflict
    (u : User) (C E now msg : string) (st st1 : State) :
  user_role u = "practice_lead" ->
  register_for_capability (mkRequest (Some u)) C E now st = (Return msg, st1) ->
  exists capability capability1,
    can_administer st u C = true /\
    capabilities st !! C = Some capability /\
    capabilities st1 !! C = Some capability1 /\
    In E (consultants capability1) /\
    length (consultants capability1) = S (length (consultants capability)) /\
    forall (u2 : User) (now2 : string),
      register_for_capability (mkRequest (Some u2)) C E now2 st1
      = (Raise (HTTPException 400 "Consultant is already registered for this capability"),
         st1).
Proof.
  intros Hrole.
  unfold register_for_capability at 1, get_authenticated_user. run.
  destruct (capabilities st !! C) as [capability|] eqn:Hcap; [|discriminate].
  destruct (is_consultant_registered capability E) eqn:Hreg; [discriminate|].
  rewrite (practice_lead_not_consultant u Hrole), Hrole. simpl.
  rewrite has_practice_area_permission_run.
  destruct (can_administer st u C) eqn:Hperm; simpl; [|discriminate].
  intros [= <- <-].
  exists capability, (with_consultants capability (consultants capability ++ [E])).
  split; [reflexivity|]. split; [reflexivity|]. simpl.
  assert (Hlook : alter (fun c => with_consultants c (consultants capability ++ [E]))
                    C (capabilities st) !! C
                  = Some (with_consultants capability (consultants capability ++ [E]))).
  { rewrite lookup_alter_eq, Hcap. reflexivity. }
  split; [exact Hlook|]. split; [apply in_or_app; right; now left|].
  split; [rewrite length_app; simpl; lia|].
  intros u2 now2. unfold register_for_capability, get_authenticated_user. run.
  rewrite Hlook, is_consultant_registered_app. reflexivity.
Qed.

(** ** Approve and reject *)

Lemma alter_consultants (C : string) (capability : Capability) (l : list string)
    (caps : gmap string Capability) :
  caps !! C = Some capability ->
  alter (fun c => with_consultants c l) C caps = <[C := with_consultants capability l]> caps.
Proof.
  intros Hcap. apply map_eq. intros i. destruct (decide (C = i)) as [<-|Hne].
  - now rewrite lookup_alter_eq, lookup_insert_eq, Hcap.
  - now rewrite lookup_alter_ne, lookup_insert_ne.
Qed.

Lemma remove_pending_found (C E : string) (pending_request : PendingRequest) (st : State) :
  find (pending_matches C E) (pending_registration_requests st) = Some pending_request ->
  remove_pending pending_request st
  = (Return tt,
     mkState (capabilities st)
       (remove_first (pending_matches C E) (pending_registration_requests st))).
Proof.
  intros Hfind. unfold remove_pending. run.
  now rewrite (list_remove_first _ _ _ Hfind).
Qed.

Lemma pending_find (st : State) (C E : string) :
  pending st C E <->
  exists request,
    find (pending_matches C E) (pending_registration_requests st) = Some request.
Proof.
  split.
  - intros [request [Hin Hm]]. eapply find_is_some; eauto.
  - intros [request Hfind]. apply find_some in Hfind. exists request. exact Hfind.
Qed.

Lemma authorized_outcome (u : User) (C E : string) (st : State) :
  can_administer st u C = true ->
  pending st C E ->
  exists capability pending_request,
    capabilities st !! C = Some capability /\
    find (pending_matches C E) (pending_registration_requests st) = Some pending_request /\
    authorization_outcome (mkRequest (Some u)) C E st = Return (capability, pending_request).
Proof.
  intros Hperm Hpend.
  destruct (can_administer_true _ _ _ Hperm) as [Hrole [capability Hcap]].
  apply pending_find in Hpend. destruct Hpend as [pending_request Hfind].
  exists capability, pending_request. split; [assumption|]. split; [assumption|].
  unfold authorization_outcome. simpl.
  rewrite Hrole, Hcap, Hperm, Hfind. reflexivity.
Qed.

Lemma approve_run (u : User) (C E : string) (st : State)
    (capability : Capability) (pending_request : PendingRequest) :
  capabilities st !! C = Some capability ->
  find (pending_matches C E) (pending_registration_requests st) = Some pending_request ->
  can_administer st u C = true ->
  approve_registration_request (mkRequest (Some u)) C E st
  = (Return ("Approved registration for " +:+ E +:+ " on " +:+ C),
     mkState (<[C := with_consultants capability (approved_roster capability E)]>
                (capabilities st))
             (remove_first (pending_matches C E) (pending_registration_requests st))).
Proof.
  intros Hcap Hfind Hperm.
  destruct (can_administer_true _ _ _ Hperm) as [Hrole _].
  unfold approve_registration_request, require_practice_lead, get_authenticated_user,
    find_pending_request. run.
  rewrite Hrole. simpl. rewrite Hcap, has_practice_area_permission_run, Hperm. simpl.
  rewrite Hfind, Hcap.
  unfold approved_roster.
  destruct (is_consultant_registered capability E) eqn:Hreg;
    unfold remove_pending; run.
  - rewrite (list_remove_first _ _ _ Hfind). simpl. do 2 f_equal.
    symmetry. apply insert_id. rewrite Hcap. f_equal. now destruct capability.
  - rewrite (list_remove_first _ _ _ Hfind). simpl. do 2 f_equal.
    now apply alter_consultants.
Qed.

(** ** Identity of pending requests *)

Lemma pending_matches_key (C E : string) (request : PendingRequest) :
  pending_matches C E request = true <-> request_key request = (C, lower E).
Proof.
  unfold pending_matches, request_key. rewrite andb_true_iff, !String.eqb_eq.
  split; [intros [-> ->]; reflexivity | intros [= -> ->]; auto].
Qed.

Lemma find_none_key (C E : string) (l : list PendingRequest) :
  find (pending_matches C E) l = None <-> ~ In (C, lower E) (map request_key l).
Proof.
  rewrite find_none_iff, in_map_iff. split.
  - intros H [request [Hkey Hin]]. apply pending_matches_key in Hkey.
    rewrite (H _ Hin) in Hkey. discriminate.
  - intros H request Hin. destruct (pending_matches C E request) eqn:Hm; [|reflexivity].
    exfalso. apply H. exists request. split; [now apply pending_matches_key | assumption].
Qed.

Lemma NoDup_keys_cons (request : PendingRequest) (l : list PendingRequest) :
  NoDup (map request_key (request :: l)) <->
  ~ In (request_key request) (map request_key l) /\ NoDup (map request_key l).
Proof. simpl. rewrite NoDup_cons, list_elem_of_In. reflexivity. Qed.

Lemma remove_first_NoDup (p : PendingRequest -> bool) (l : list PendingRequest) :
  NoDup (map request_key l) -> NoDup (map request_key (remove_first p l)).
Proof.
  induction l as [|y ys IH]; [trivial|].
  rewrite NoDup_keys_cons. intros [Hnotin Hnd]. cbn [remove_first].
  destruct (p y); [assumption|]. rewrite NoDup_keys_cons. split; [|auto].
  rewrite in_map_iff in *. intros [z [Hkey Hin]]. apply Hnotin. exists z.
  split; [assumption|]. eapply remove_first_In; eassumption.
Qed.

Lemma remove_first_unique (C E : string) (l : list PendingRequest) :
  NoDup (map request_key l) ->
  find (pending_matches C E) (remove_first (pending_matches C E) l) = None.
Proof.
  induction l as [|y ys IH]; [reflexivity|].
  rewrite NoDup_keys_cons. intros [Hnotin Hnd]. cbn [remove_first].
  destruct (pending_matches C E y) eqn:Hm.
  - apply find_none_key. apply pending_matches_key in Hm. now rewrite <- Hm.
  - cbn [find]. rewrite Hm. auto.
Qed.

Lemma append_NoDup (request : PendingRequest) (l : list PendingRequest) :
  NoDup (map request_key l) ->
  find (pending_matches (req_capability_name request) (req_email request)) l = None ->
  NoDup (map request_key (l ++ [request])).
Proof.
  intros Hnd Hfind. apply find_none_key in Hfind.
  rewrite map_app. apply NoDup_app. split; [assumption|]. split.
  - intros k Hk Hk'. apply list_elem_of_In in Hk, Hk'.
    destruct Hk' as [<-|[]]. exact (Hfind Hk).
  - apply NoDup_singleton.
Qed.

Lemma not_registered_iff (capability : Capability) (E : string) :
  is_consultant_registered capability E = false <->
  ~ In (lower E) (map lower (consultants capability)).
Proof.
  unfold is_consultant_registered. rewrite <- not_true_iff_false, existsb_exists, in_map_iff.
  unfold same_email. split; intros H [x Hx]; apply H; exists x.
  - destruct Hx as [Heq Hin]. split; [assumption | now apply String.eqb_eq].
  - destruct Hx as [Hin Heq]. split; [now apply String.eqb_eq | assumption].
Qed.

Lemma approved_roster_registered (capability : Capability) (E : string) :
  is_consultant_registered (with_consultants capability (approved_roster capability E)) E
  = true.
Proof.
  unfold approved_roster.
  destruct (is_consultant_registered capability E) eqn:Hreg.
  - unfold is_consultant_registered in *. exact Hreg.
  - apply is_consultant_registered_app.
Qed.

Lemma approved_roster_unique (capability : Capability) (E : string) :
  roster_unique capability ->
  roster_unique (with_consultants capability (approved_roster capability E)).
Proof.
  unfold roster_unique, approved_roster. simpl. intros Hnd.
  destruct (is_consultant_registered capability E) eqn:Hreg; [assumption|].
  apply not_registered_iff in Hreg.
  rewrite map_app. apply NoDup_app. split; [assumption|]. split.
  - intros k Hk Hk'. apply list_elem_of_In in Hk, Hk'.
    destruct Hk' as [<-|[]]. exact (Hreg Hk).
  - apply NoDup_singleton.
Qed.

(** C3: for a practice lead who may administer the capability, approving
    an existing pending request succeeds, takes the request out of the
    pending list, and leaves the email in the roster: appended when it was
    not registered, the roster untouched when it was, so that a roster
    without duplicates stays without duplicates. *)
Theorem approve_pending_request (u : User) (C E : string) (st : State) :
  can_administer st u C = true ->
  pending st C E ->
  exists (msg : string) (st' : State) (capability capability' : Capability),
    approve_registration_request (mkRequest (Some u)) C E st = (Return msg, st') /\
    capabilities st !! C = Some capability /\
    capabilities st' !! C = Some capability' /\
    pending_registration_requests st'
    = remove_first (pending_matches C E) (pending_registration_requests st) /\
    S (length (pending_registration_requests st'))
    = length (pending_registration_requests st) /\
    (pending_unique st -> ~ pending st' C E) /\
    is_consultant_registered capability' E = true /\
    consultants capability'
    = (if is_consultant_registered capability E then consultants capability
       else consultants capability ++ [E]) /\
    (roster_unique capability -> roster_unique capability').
Proof.
  intros Hperm Hpend.
  destruct (authorized_outcome u C E st Hperm Hpend)
    as [capability [pending_request [Hcap [Hfind _]]]].
  eexists _, _, capability, _.
  split; [apply (approve_run u C E st capability pending_request); assumption|].
  simpl. split; [assumption|]. split; [apply lookup_insert_eq|].
  split; [reflexivity|]. split; [eapply remove_first_length; eassumption|].
  split.
  { intros Huniq Hstill. apply pending_find in Hstill. simpl in Hstill.
    destruct Hstill as [request Hrequest].
    rewrite (remove_first_unique C E _ Huniq) in Hrequest. discriminate. }
  split; [apply approved_roster_registered|].
  split; [reflexivity|]. apply approved_roster_unique.
Qed.

Lemma outcome_cases (request : Request) (C E : string) (st : State) :
  (exists e, authorization_outcome request C E st = Raise e) \/
  (exists (u : User) (capability : Capability) (pending_request : PendingRequest),
      request = mkRequest (Some u) /\
      can_administer st u C = true /\
      capabilities st !! C = Some capability /\
      find (pending_matches C E) (pending_registration_requests st) = Some pending_request /\
      authorization_outcome request C E st = Return (capability, pending_request)).
Proof.
  unfold authorization_outcome. destruct request as [[u|]]; simpl; [|eauto].
  destruct (user_role u =? "practice_lead"); [|eauto].
  destruct (capabilities st !! C) as [capability|] eqn:Hcap; [|eauto].
  destruct (can_administer st u C) eqn:Hperm; [|eauto].
  destruct (find _ _) as [pending_request|] eqn:Hfind; [|eauto].
  right. exists u, capability, pending_request. repeat split; assumption.
Qed.

Lemma reject_run (request : Request) (C E : string) (st : State) :
  reject_registration_request request C E st
  = match authorization_outcome request C E st with
    | Raise e => (Raise e, st)
    | Return _ =>
        (Return ("Rejected registration request for " +:+ E +:+ " on " +:+ C),
         mkState (capabilities st)
           (remove_first (pending_matches C E) (pending_registration_requests st)))
    end.
Proof.
  unfold reject_registration_request, authorization_outcome, require_practice_lead,
    get_authenticated_user, find_pending_request.
  destruct request as [[u|]]; run; [|reflexivity].
  destruct (user_role u =? "practice_lead"); simpl; [|reflexivity].
  destruct (capabilities st !! C) as [capability|]; [|reflexivity].
  rewrite has_practice_area_permission_run.
  destruct (can_administer st u C); simpl; [|reflexivity].
  destruct (find _ _) as [pending_request|] eqn:Hfind; [|reflexivity].
  now rewrite (remove_pending_found C E pending_request st Hfind).
Qed.

Lemma approve_refused (request : Request) (C E : string) (st : State) (e : Exception) :
  authorization_outcome request C E st = Raise e ->
  approve_registration_request request C E st = (Raise e, st).
Proof.
  unfold approve_registration_request, authorization_outcome, require_practice_lead,
    get_authenticated_user, find_pending_request.
  destruct request as [[u|]]; run; [|now intros [= <-]].
  destruct (user_role u =? "practice_lead"); simpl; [|now intros [= <-]].
  destruct (capabilities st !! C) as [capability|]; [|now intros [= <-]].
  rewrite has_practice_area_permission_run.
  destruct (can_administer st u C); simpl; [|now intros [= <-]].
  destruct (find _ _) as [pending_request|] eqn:Hfind; [discriminate|now intros [= <-]].
Qed.

Lemma approve_raises (request : Request) (C E : string) (st : State) (e : Exception) :
  fst (approve_registration_request request C E st) = Raise e <->
  authorization_outcome request C E st = Raise e.
Proof.
  destruct (outcome_cases request C E st)
    as [[e' Hout]|[u [capability [pending_request [-> [Hperm [Hcap [Hfind Hout]]]]]]]].
  - rewrite (approve_refused _ _ _ _ _ Hout), Hout. simpl.
    split; intros [= ->]; reflexivity.
  - rewrite (approve_run u C E st capability pending_request Hcap Hfind Hperm), Hout.
    simpl. split; discriminate.
Qed.

(** C9: reject never touches the registry; it is refused exactly when
    approve is, with the same exception and then without any change; and
    for a practice lead who may administer the capability it takes an
    existing pending request out of the list and succeeds. *)
Theorem reject_removes_request_only (request : Request) (C E : string) (st : State) :
  capabilities (snd (reject_registration_request request C E st)) = capabilities st /\
  (forall e : Exception,
      fst (reject_registration_request request C E st) = Raise e <->
      fst (approve_registration_request request C E st) = Raise e) /\
  (forall e : Exception,
      fst (reject_registration_request request C E st) = Raise e ->
      snd (reject_registration_request request C E st) = st /\
      exists detail, e = HTTPException 401 detail \/ e = HTTPException 403 detail
                     \/ e = HTTPException 404 detail) /\
  (forall u : User,
      session request = Some u ->
      can_administer st u C = true ->
      pending st C E ->
      fst (reject_registration_request request C E st) 
      = Return ("Rejected registration request for " +:+ E +:+ " on " +:+ C) /\
      pending_registration_requests (snd (reject_registration_request request C E st))
      = remove_first (pending_matches C E) (pending_registration_requests st) /\
      S (length (pending_registration_requests
                   (snd (reject_registration_request request C E st))))
      = length (pending_registration_requests st) /\
      (pending_unique st ->
       ~ pending (snd (reject_registration_request request C E st)) C E)).
Proof.
  rewrite reject_run. split; [|split; [|split]].
  - destruct (authorization_outcome request C E st); reflexivity.
  - intros e. rewrite approve_raises.
    destruct (authorization_outcome request C E st); simpl; split; congruence.
  - intros e He. split.
    + destruct (authorization_outcome request C E st); simpl in *; congruence.
    + revert He. unfold authorization_outcome.
      destruct (session request) as [u|]; simpl; [|intros [= <-]; eauto].
      destruct (user_role u =? "practice_lead"); simpl; [|intros [= <-]; eauto].
      destruct (capabilities st !! C); simpl; [|intros [= <-]; eauto 6].
      destruct (can_administer st u C); simpl; [|intros [= <-]; eauto].
      destruct (find _ _); simpl; [discriminate|intros [= <-]; eauto 6].
  - intros u Hsession Hperm Hpend. destruct request as [s]. simpl in Hsession. subst s.
    destruct (authorized_outcome u C E st Hperm Hpend) as [? [? [_ [Hfind ->]]]]. simpl.
    split; [reflexivity|]. split; [reflexivity|].
    split; [eapply remove_first_length; eassumption|].
    intros Huniq Hstill. apply pending_find in Hstill. simpl in Hstill.
    destruct Hstill as [r Hr]. rewrite (remove_first_unique C E _ Huniq) in Hr. discriminate.
Qed.

(** ** Unregister *)

Lemma existsb_find {A} (p : A -> bool) (l : list A) :
  existsb p l = match find p l with Some _ => true | None => false end.
Proof.
  induction l as [|x xs IH]; [reflexivity|]. simpl. destruct (p x); [reflexivity | exact IH].
Qed.

Lemma unregister_run (u : User) (C E : string) (st : State) (capability : Capability) :
  can_administer st u C = true ->
  capabilities st !! C = Some capability ->
  unregister_from_capability (mkRequest (Some u)) C E st
  = if is_consultant_registered capability E
    then (Return ("Unregistered " +:+ E +:+ " from " +:+ C),
          mkState (<[C := with_consultants capability
                             (remove_first (same_email E) (consultants capability))]>
                     (capabilities st))
                  (pending_registration_requests st))
    else (Raise (HTTPException 400 "Consultant is not registered for this capability"), st).
Proof.
  intros Hperm Hcap. destruct (can_administer_true _ _ _ Hperm) as [Hrole _].
  unfold unregister_from_capability, require_practice_lead, get_authenticated_user. run.
  rewrite Hrole. simpl. rewrite Hcap, has_practice_area_permission_run, Hperm. simpl.
  unfold remove_consultant, is_consultant_registered. rewrite existsb_find.
  destruct (find (same_email E) (consultants capability)) as [consultant|] eqn:Hfind;
    [|reflexivity].
  rewrite (list_remove_first _ _ _ Hfind). run.
  now rewrite (alter_consultants C capability).
Qed.


(** ** What one call does to the globals *)

Lemma register_effect (request : Request) (C E now : string) (st : State) :
  let st' := snd (register_for_capability request C E now st) in
  st' = st \/
  (exists (u : User) (capability : Capability),
      session request = Some u /\ user_role u = "consultant" /\
      capabilities st !! C = Some capability /\
      is_consultant_registered capability E = false /\
      find (pending_matches C E) (pending_registration_requests st) = None /\
      st' = mkState (capabilities st)
              (pending_registration_requests st
               ++ [mkPendingRequest C E (user_username u) now])) \/
  (exists (u : User) (capability : Capability),
      session request = Some u /\ user_role u = "practice_lead" /\
      capabilities st !! C = Some capability /\
      is_consultant_registered capability E = false /\
      st' = mkState (<[C := with_consultants capability (consultants capability ++ [E])]>
                       (capabilities st))
              (pending_registration_requests st)).
Proof.
  destruct request as [[u|]]; unfold register_for_capability, get_authenticated_user,
    find_pending_request; run; [|now left].
  destruct (capabilities st !! C) as [capability|] eqn:Hcap; [|now left].
  destruct (is_consultant_registered capability E) eqn:Hreg; [now left|].
  destruct (user_role u =? "consultant") eqn:Hcons.
  - destruct (negb _); [now left|]. simpl.
    destruct (find _ _) eqn:Hfind; [now left|]. simpl.
    right; left. exists u, capability. apply String.eqb_eq in Hcons. auto 7.
  - destruct (user_role u =? "practice_lead") eqn:Hlead; [|now left].
    rewrite has_practice_area_permission_run.
    destruct (can_administer st u C); simpl; [|now left].
    right; right. exists u, capability. apply String.eqb_eq in Hlead.
    rewrite (alter_consultants C capability) by assumption. auto 7.
Qed.

Lemma unregister_effect (request : Request) (C E : string) (st : State) :
  let st' := snd (unregister_from_capability request C E st) in
  st' = st \/
  exists capability : Capability,
    capabilities st !! C = Some capability /\
    st' = mkState (<[C := with_consultants capability
                             (remove_first (same_email E) (consultants capability))]>
                     (capabilities st))
            (pending_registration_requests st).
Proof.
  destruct request as [[u|]];
    [|unfold unregister_from_capability, require_practice_lead, get_authenticated_user;
      run; now left].
  destruct (can_administer st u C) eqn:Hperm.
  - destruct (can_administer_true _ _ _ Hperm) as [_ [capability Hcap]].
    rewrite (unregister_run u C E st capability Hperm Hcap).
    destruct (is_consultant_registered capability E); simpl; [|now left].
    right. eauto.
  - unfold unregister_from_capability, require_practice_lead, get_authenticated_user. run.
    destruct (user_role u =? "practice_lead"); simpl; [|now left].
    destruct (capabilities st !! C); [|now left].
    rewrite has_practice_area_permission_run, Hperm. now left.
Qed.

Lemma approve_effect (request : Request) (C E : string) (st : State) :
  let st' := snd (approve_registration_request request C E st) in
  st' = st \/
  exists (capability : Capability) (pending_request : PendingRequest),
    capabilities st !! C = Some capability /\
    find (pending_matches C E) (pending_registration_requests st) = Some pending_request /\
    st' = mkState (<[C := with_consultants capability (approved_roster capability E)]>
                     (capabilities st))
            (remove_first (pending_matches C E) (pending_registration_requests st)).
Proof.
  destruct (outcome_cases request C E st)
    as [[e' Hout]|[u [capability [pending_request [-> [Hperm [Hcap [Hfind Hout]]]]]]]].
  - left. now rewrite (approve_refused _ _ _ _ _ Hout).
  - right. exists capability, pending_request.
    rewrite (approve_run u C E st capability pending_request Hcap Hfind Hperm). auto.
Qed.

Lemma reject_effect (request : Request) (C E : string) (st : State) :
  let st' := snd (reject_registration_request request C E st) in
  st' = st \/
  st' = mkState (capabilities st)
          (remove_first (pending_matches C E) (pending_registration_requests st)).
Proof.
  simpl. rewrite reject_run. destruct (authorization_outcome request C E st); auto.
Qed.

(** ** Invariants of the reachable states *)

Lemma lookup_same_or_other (C C' : string) (capability : Capability)
    (caps : gmap string Capability) (c' : Capability) :
  <[C := capability]> caps !! C' = Some c' ->
  (C' = C /\ c' = capability) \/ (C' <> C /\ caps !! C' = Some c').
Proof.
  destruct (decide (C = C')) as [<-|Hne].
  - rewrite lookup_insert_eq. intros [= <-]. now left.
  - rewrite lookup_insert_ne by assumption. intros H. right. split; congruence.
Qed.

Lemma run_call_well_formed (c : Call) (st : State) :
  pending_well_formed st -> pending_well_formed (run_call c st).
Proof.
  intros [Huniq Hexist]. unfold pending_well_formed, pending_unique, pending_capabilities_exist.
  destruct c as [request C E now|request C E|request C E|request C E]; simpl.
  - destruct (register_effect request C E now st)
      as [->|[[u [capability [_ [_ [Hcap [_ [Hfind ->]]]]]]]|[u [capability [_ [_ [Hcap [_ ->]]]]]]]];
      simpl; [auto| |].
    + split; [now apply append_NoDup|].
      intros request' [Hin|[<-|[]]]%in_app_or; [auto | simpl; eauto].
    + split; [assumption|]. intros request' Hin.
      destruct (Hexist _ Hin) as [c' Hc'].
      destruct (decide (C = req_capability_name request')) as [<-|Hne].
      * rewrite lookup_insert_eq. eauto.
      * rewrite lookup_insert_ne by assumption. eauto.
  - destruct (unregister_effect request C E st) as [->|[capability [Hcap ->]]]; simpl; [auto|].
    split; [assumption|]. intros request' Hin.
    destruct (Hexist _ Hin) as [c' Hc'].
    destruct (decide (C = req_capability_name request')) as [<-|Hne].
    + rewrite lookup_insert_eq. eauto.
    + rewrite lookup_insert_ne by assumption. eauto.
  - destruct (approve_effect request C E st)
      as [->|[capability [pending_request [Hcap [Hfind ->]]]]]; simpl; [auto|].
    split; [now apply remove_first_NoDup|]. intros request' Hin.
    apply remove_first_In in Hin. destruct (Hexist _ Hin) as [c' Hc'].
    destruct (decide (C = req_capability_name request')) as [<-|Hne].
    + rewrite lookup_insert_eq. eauto.
    + rewrite lookup_insert_ne by assumption. eauto.
  - destruct (reject_effect request C E st) as [->| ->]; simpl; [auto|].
    split; [now apply remove_first_NoDup|]. intros request' Hin.
    apply remove_first_In in Hin. auto.
Qed.

Lemma reachable_well_formed (st : State) : reachable st -> pending_well_formed st.
Proof.
  induction 1 as [|st c _ IH].
  - split; [apply NoDup_nil_2 | intros request []].
  - now apply run_call_well_formed.
Qed.

Lemma registered_lower (capability : Capability) (E E' : string) :
  lower E = lower E' ->
  is_consultant_registered capability E = is_consultant_registered capability E'.
Proof.
  intros Heq. unfold is_consultant_registered, same_email. now rewrite Heq.
Qed.

Lemma pending_lower (st : State) (C E E' : string) :
  lower E = lower E' -> pending st C E -> pending st C E'.
Proof.
  intros Heq [request [Hin Hm]]. exists request. split; [assumption|].
  unfold pending_matches in *. now rewrite <- Heq.
Qed.

Lemma registered_appended (capability : Capability) (E E' : string) :
  is_consultant_registered (with_consultants capability (consultants capability ++ [E])) E'
  = true ->
  is_consultant_registered capability E' = true \/ lower E = lower E'.
Proof.
  unfold is_consultant_registered. simpl. rewrite existsb_app. simpl.
  rewrite orb_false_r. intros [H|H]%orb_true_iff; [now left|].
  right. now apply String.eqb_eq in H.
Qed.

Lemma registered_removed (capability : Capability) (p : string -> bool) (E' : string) :
  is_consultant_registered (with_consultants capability (remove_first p (consultants capability))) E'
  = true ->
  is_consultant_registered capability E' = true.
Proof.
  unfold is_consultant_registered. simpl. rewrite !existsb_exists.
  intros [x [Hin Hx]]. exists x. split; [|assumption]. eapply remove_first_In; eassumption.
Qed.

Lemma pending_removed (caps caps' : gmap string Capability) (l : list PendingRequest)
    (p : PendingRequest -> bool) (C E : string) :
  pending (mkState caps' (remove_first p l)) C E -> pending (mkState caps l) C E.
Proof.
  intros [request [Hin Hm]]. exists request. split; [|assumption].
  simpl in *. eapply remove_first_In; eassumption.
Qed.

(** One call keeps "never registered and pending", unless it is a direct
    registration by a practice lead for a pair that is pending. *)
Lemma run_call_never_both (c : Call) (st : State) :
  pending_unique st ->
  never_registered_and_pending st ->
  ~ lead_registers_pending c st ->
  never_registered_and_pending (run_call c st).
Proof.
  intros Huniq Hinv Hnot. destruct st as [caps l].
  destruct c as [request C E now|request C E|request C E|request C E]; simpl.
  - destruct (register_effect request C E now (mkState caps l))
      as [->|[[u [capability [_ [_ [Hcap [Hreg [Hfind ->]]]]]]]
             |[u [capability [Hsession [Hrole [Hcap [Hreg ->]]]]]]]]; [assumption| |];
      simpl in *; intros C' E' [[c' [Hc' Hreg']] [request' [Hin Hm]]]; simpl in *.
    + apply in_app_or in Hin. destruct Hin as [Hin|[<-|[]]].
      * apply (Hinv C' E'). split; [exists c'|exists request']; auto.
      * apply pending_matches_key in Hm. unfold request_key in Hm. simpl in Hm.
        injection Hm as <- Hlow.
        rewrite Hcap in Hc'. injection Hc' as <-.
        rewrite (registered_lower capability E E' Hlow) in Hreg. congruence.
    + apply lookup_same_or_other in Hc'. destruct Hc' as [[-> ->]|[Hne Hc']].
      * apply registered_appended in Hreg'. destruct Hreg' as [Hreg'|Hlow].
        -- apply (Hinv C E'). split; [exists capability|exists request']; auto.
        -- apply Hnot. destruct request as [s]. simpl in Hsession. subst s.
           exists u, C, E, now. split; [reflexivity|]. split; [assumption|].
           apply (pending_lower _ C E' E); [congruence|]. exists request'. auto.
      * apply (Hinv C' E'). split; [exists c'|exists request']; auto.
  - destruct (unregister_effect request C E (mkState caps l))
      as [->|[capability [Hcap ->]]]; [assumption|].
    simpl in *; intros C' E' [[c' [Hc' Hreg']] [request' [Hin Hm]]]; simpl in *.
    apply (Hinv C' E'). split; [|exists request'; auto].
    apply lookup_same_or_other in Hc'. destruct Hc' as [[-> ->]|[Hne Hc']].
    + exists capability. split; [assumption|]. eapply registered_removed; eassumption.
    + exists c'. auto.
  - destruct (approve_effect request C E (mkState caps l))
      as [->|[capability [pending_request [Hcap [Hfind ->]]]]]; [assumption|].
    simpl in *; intros C' E' [[c' [Hc' Hreg']] Hpend]; simpl in *.
    pose proof (pending_removed caps _ _ _ _ _ Hpend) as Hpend0.
    apply lookup_same_or_other in Hc'. destruct Hc' as [[-> ->]|[Hne Hc']].
    + unfold approved_roster in Hreg'.
      destruct (is_consultant_registered capability E) eqn:Hreg.
      * apply (Hinv C E'). split; [exists capability|]; auto.
      * apply registered_appended in Hreg'. destruct Hreg' as [Hreg'|Hlow].
        -- apply (Hinv C E'). split; [exists capability|]; auto.
        -- apply (pending_lower _ C E' E) in Hpend; [|congruence].
           apply pending_find in Hpend. simpl in Hpend. destruct Hpend as [r Hr].
           rewrite (remove_first_unique C E l Huniq) in Hr. discriminate.
    + apply (Hinv C' E'). split; [exists c'|]; auto.
  - destruct (reject_effect request C E (mkState caps l)) as [->| ->]; [assumption|].
    intros C' E' [[c' [Hc' Hreg']] Hpend]; simpl in *.
    apply (Hinv C' E'). split; [exists c'; auto|].
    eapply pending_removed; eassumption.
Qed.

(** C6: in every reachable state the pending list holds at most one
    request per capability name and lower-cased email, and a consultant's
    own submission for a pair that is pending is refused with a 400 and
    changes neither the pending list nor the registry. *)
Theorem pending_requests_unique (st : State) :
  reachable st ->
  pending_unique st /\
  forall (u : User) (C E now : string),
    user_role u = "consultant" ->
    lower (user_email u) = lower E ->
    pending st C E ->
    exists capability : Capability,
      capabilities st !! C = Some capability /\
      register_for_capability (mkRequest (Some u)) C E now st
      = (Raise (HTTPException 400
                  (if is_consultant_registered capability E
                   then "Consultant is already registered for this capability"
                   else "A pending registration request already exists")),
         st).
Proof.
  intros Hreach. destruct (reachable_well_formed st Hreach) as [Huniq Hexist].
  split; [assumption|]. intros u C E now Hrole Hself Hpend.
  pose proof Hpend as [request [Hin Hm]].
  destruct (Hexist _ Hin) as [capability Hcap].
  apply pending_matches_key in Hm. injection Hm as HC _. rewrite HC in Hcap.
  exists capability. split; [assumption|].
  apply pending_find in Hpend. destruct Hpend as [found Hfound].
  unfold register_for_capability, get_authenticated_user, find_pending_request. run.
  rewrite Hcap. destruct (is_consultant_registered capability E); [reflexivity|].
  rewrite Hrole, Hself. simpl. rewrite String.eqb_refl. simpl. now rewrite Hfound.
Qed.

(** C1, as the code has it: a call keeps "no pair is both registered and
    pending" in every reachable state, unless it is a direct registration
    by a practice lead for a pair that has a pending request. *)
Theorem never_both_preserved (c : Call) (st : State) :
  reachable st ->
  never_registered_and_pending st ->
  ~ lead_registers_pending c st ->
  never_registered_and_pending (run_call c st).
Proof.
  intros Hreach. apply run_call_never_both.
  exact (proj1 (reachable_well_formed st Hreach)).
Qed.

Lemma registered_iff (st : State) (C E : string) :
  registered st C E <-> registeredb st C E = true.
Proof.
  unfold registered, registeredb. split.
  - intros [capability [-> H]]. exact H.
  - destruct (capabilities st !! C) as [capability|]; [eauto | discriminate].
Qed.

Lemma pending_iff (st : State) (C E : string) :
  pending st C E <-> pendingb st C E = true.
Proof. unfold pending, pendingb. now rewrite existsb_exists. Qed.

Lemma initial_never_both : never_registered_and_pending initial_state.
Proof. intros C E [_ [request [[] _]]]. Qed.

Lemma dana_requested_never_both : never_registered_and_pending dana_requested.
Proof.
  apply run_call_never_both.
  - apply NoDup_nil_2.
  - apply initial_never_both.
  - intros [u [C [E [now [Hc [Hrole _]]]]]]. injection Hc as <- _ _ _.
    discriminate Hrole.
Qed.


(** ** Password verification and login *)

Lemma hex_is_ascii (bs : string) : Py.is_ascii (Py.hex bs) = true.
Proof.
  induction bs as [|b rest IH]; [reflexivity|].
  cbn [Py.hex Py.is_ascii]. rewrite IH.
  destruct b as [[] [] [] [] [] [] [] []]; reflexivity.
Qed.

Section AuthFacts.

Variable pbkdf2_sha256 : string -> string -> Z -> string.

Lemma verify_password_usable
    (stored_hash password iterations salt digest : string) (n : Z) :
  Py.split "$" 3 stored_hash = ["pbkdf2_sha256"; iterations; salt; digest] ->
  int iterations = Some n ->
  1 <= n <= INT_MAX ->
  Py.is_ascii digest = true ->
  verify_password pbkdf2_sha256 stored_hash password
  = Return (Py.hex (pbkdf2_sha256 password salt n) =? digest).
Proof.
  intros Hsplit Hint [Hlo Hhi] Hascii. unfold verify_password, pbkdf2_hmac, compare_digest.
  rewrite Hsplit, Hint. simpl.
  destruct (Z.ltb_spec n LONG_MIN); [unfold LONG_MIN in *; lia|].
  destruct (Z.ltb_spec n 1); [lia|]. destruct (Z.ltb_spec INT_MAX n); [lia|].
  now rewrite hex_is_ascii, Hascii.
Qed.

Lemma verify_password_too_few (stored_hash password : string) :
  too_few_fields stored_hash ->
  verify_password pbkdf2_sha256 stored_hash password
  = Raise (HTTPException 500 "Invalid credential configuration").
Proof.
  intros Hfew. unfold verify_password.
  destruct (Py.split "$" 3 stored_hash) as [|a [|i [|s [|d [|x rest]]]]] eqn:Hsplit;
    try reflexivity.
  exfalso. exact (Hfew a i s d Hsplit).
Qed.

Lemma verify_password_unknown_tag
    (stored_hash password algorithm iterations salt digest : string) :
  Py.split "$" 3 stored_hash = [algorithm; iterations; salt; digest] ->
  algorithm <> "pbkdf2_sha256" ->
  verify_password pbkdf2_sha256 stored_hash password
  = Raise (HTTPException 500 "Unsupported password hash algorithm").
Proof.
  intros Hsplit Htag. unfold verify_password. rewrite Hsplit.
  apply String.eqb_neq in Htag. now rewrite Htag.
Qed.

(** C8, as the code has it: when the stored hash has four fields, the
    known tag, a round count that is a number from 1 to [INT_MAX] and an
    ASCII digest, a password whose derived digest differs is answered with
    401; when the hash has fewer than four fields or another tag,
    verification raises the 500 whatever the password, and so does
    [login] for that user. *)
Theorem stored_hash_outcomes :
  (forall (users : list UserRecord) (request : Request) (payload : LoginRequest)
          (user : UserRecord) (iterations salt digest : string) (n : Z),
      get_user_by_username users (login_username payload) = Some user ->
      Py.split "$" 3 (cred_password_hash user)
      = ["pbkdf2_sha256"; iterations; salt; digest] ->
      int iterations = Some n ->
      1 <= n <= INT_MAX ->
      Py.is_ascii digest = true ->
      Py.hex (pbkdf2_sha256 (login_password payload) salt n) <> digest ->
      login pbkdf2_sha256 users request payload
      = (Raise (HTTPException 401 "Invalid username or password"), request)) /\
  (forall (stored_hash password : string),
      too_few_fields stored_hash \/
      (exists algorithm iterations salt digest : string,
          Py.split "$" 3 stored_hash = [algorithm; iterations; salt; digest] /\
          algorithm <> "pbkdf2_sha256") ->
      exists detail : string,
        verify_password pbkdf2_sha256 stored_hash password
        = Raise (HTTPException 500 detail) /\
        forall (users : list UserRecord) (request : Request) (username : string)
               (user : UserRecord),
          get_user_by_username users username = Some user ->
          cred_password_hash user = stored_hash ->
          login pbkdf2_sha256 users request (mkLoginRequest username password)
          = (Raise (HTTPException 500 detail), request)).
Proof.
  split.
  - intros users request payload user iterations salt digest n Huser Hsplit Hint Hn Hascii Hne.
    unfold login. rewrite Huser.
    rewrite (verify_password_usable _ _ _ _ _ _ Hsplit Hint Hn Hascii).
    apply String.eqb_neq in Hne. now rewrite Hne.
  - intros stored_hash password Hbad.
    assert (Hverify : exists detail,
               verify_password pbkdf2_sha256 stored_hash password
               = Raise (HTTPException 500 detail)).
    { destruct Hbad as [Hfew|[a [i [s [d [Hsplit Htag]]]]]].
      - eexists. now apply verify_password_too_few.
      - eexists. eapply verify_password_unknown_tag; eassumption. }
    destruct Hverify as [detail Hverify]. exists detail. split; [assumption|].
    intros users request username user Huser Hhash. unfold login. simpl.
    now rewrite Huser, Hhash, Hverify.
Qed.

End AuthFacts.


(** * Further properties of the handlers *)

(** ** Every call is refused without effect or accepted *)

Lemma register_cases (request : Request) (C E now : string) (st : State) :
  (exists e, register_for_capability request C E now st = (Raise e, st)
             /\ is_client_error e = true) \/
  (exists msg, register_for_capability request C E now st
               = (Return msg, run_call (CallRegister request C E now) st)
               /\ accepted (CallRegister request C E now) st
                    (run_call (CallRegister request C E now) st)).
Proof.
  unfold run_call.
  destruct request as [[u|]]; unfold register_for_capability, get_authenticated_user,
    find_pending_request; run; [|left; eauto].
  destruct (capabilities st !! C) as [capability|] eqn:Hcap; [|left; eauto].
  destruct (is_consultant_registered capability E) eqn:Hreg; [left; eauto|].
  destruct (user_role u =? "consultant") eqn:Hcons.
  - apply String.eqb_eq in Hcons.
    destruct (lower (user_email u) =? lower E) eqn:Hself; simpl; [|left; eauto].
    apply String.eqb_eq in Hself.
    destruct (find _ _) eqn:Hfind; simpl; [left; eauto|].
    right. eexists. split; [reflexivity|]. now apply (accepted_submit u C E now st capability).
  - destruct (user_role u =? "practice_lead") eqn:Hlead; [|left; eauto].
    rewrite has_practice_area_permission_run.
    destruct (can_administer st u C) eqn:Hperm; simpl; [|left; eauto].
    right. eexists. split; [reflexivity|].
    rewrite (alter_consultants C capability) by assumption.
    now apply (accepted_register u C E now st capability).
Qed.

Lemma unregister_cases (request : Request) (C E : string) (st : State) :
  (exists e, unregister_from_capability request C E st = (Raise e, st)
             /\ is_client_error e = true) \/
  (exists msg, unregister_from_capability request C E st
               = (Return msg, run_call (CallUnregister request C E) st)
               /\ accepted (CallUnregister request C E) st
                    (run_call (CallUnregister request C E) st)).
Proof.
  unfold run_call.
  destruct request as [[u|]];
    [|left; unfold unregister_from_capability, require_practice_lead,
        get_authenticated_user; run; eauto].
  destruct (can_administer st u C) eqn:Hperm.
  - destruct (can_administer_true _ _ _ Hperm) as [_ [capability Hcap]].
    rewrite (unregister_run u C E st capability Hperm Hcap).
    destruct (is_consultant_registered capability E) eqn:Hreg; [|left; eauto].
    right. eexists. split; [reflexivity|]. simpl.
    now apply (accepted_unregister u C E st capability).
  - left. unfold unregister_from_capability, require_practice_lead, get_authenticated_user.
    run. destruct (user_role u =? "practice_lead"); simpl; [|eauto].
    destruct (capabilities st !! C); [|eauto].
    rewrite has_practice_area_permission_run, Hperm. simpl. eauto.
Qed.

Lemma outcome_client_error (request : Request) (C E : string) (st : State) (e : Exception) :
  authorization_outcome request C E st = Raise e -> is_client_error e = true.
Proof.
  unfold authorization_outcome. destruct request as [[u|]]; simpl; [|now intros [= <-]].
  destruct (user_role u =? "practice_lead"); [|now intros [= <-]].
  destruct (capabilities st !! C); [|now intros [= <-]].
  destruct (can_administer st u C); [|now intros [= <-]].
  destruct (find _ _); [discriminate | now intros [= <-]].
Qed.

Lemma approve_cases (request : Request) (C E : string) (st : State) :
  (exists e, approve_registration_request request C E st = (Raise e, st)
             /\ is_client_error e = true) \/
  (exists msg, approve_registration_request request C E st
               = (Return msg, run_call (CallApprove request C E) st)
               /\ accepted (CallApprove request C E) st
                    (run_call (CallApprove request C E) st)).
Proof.
  unfold run_call.
  destruct (outcome_cases request C E st)
    as [[e Hout]|[u [capability [pending_request [-> [Hperm [Hcap [Hfind Hout]]]]]]]].
  - left. exists e. split; [now apply approve_refused | eapply outcome_client_error; eauto].
  - right. rewrite (approve_run u C E st capability pending_request Hcap Hfind Hperm).
    eexists. split; [reflexivity|]. simpl.
    now apply (accepted_approve u C E st capability pending_request).
Qed.

Lemma reject_cases (request : Request) (C E : string) (st : State) :
  (exists e, reject_registration_request request C E st = (Raise e, st)
             /\ is_client_error e = true) \/
  (reject_registration_request request C E st
   = (Return ("Rejected registration request for " +:+ E +:+ " on " +:+ C), run_call (CallReject request C E) st)
   /\ accepted (CallReject request C E) st (run_call (CallReject request C E) st)).
Proof.
  unfold run_call. rewrite reject_run.
  destruct (outcome_cases request C E st)
    as [[e Hout]|[u [capability [pending_request [-> [Hperm [Hcap [Hfind Hout]]]]]]]].
  - left. exists e. rewrite Hout. split; [reflexivity | eapply outcome_client_error; eauto].
  - right. rewrite Hout. simpl. split; [reflexivity|].
    now apply (accepted_reject u C E st pending_request).
Qed.

Lemma call_cases (c : Call) (st : State) :
  (exists e, call_exception c st = Some e /\ is_client_error e = true
             /\ run_call c st = st) \/
  (call_exception c st = None /\ accepted c st (run_call c st)).
Proof.
  destruct c as [request C E now|request C E|request C E|request C E].
  - destruct (register_cases request C E now st) as [[e [Hrun He]]|[msg [Hrun Hacc]]].
    + left. exists e. unfold call_exception, run_call. now rewrite Hrun.
    + right. unfold call_exception. now rewrite Hrun.
  - destruct (unregister_cases request C E st) as [[e [Hrun He]]|[msg [Hrun Hacc]]].
    + left. exists e. unfold call_exception, run_call. now rewrite Hrun.
    + right. unfold call_exception. now rewrite Hrun.
  - destruct (approve_cases request C E st) as [[e [Hrun He]]|[msg [Hrun Hacc]]].
    + left. exists e. unfold call_exception, run_call. now rewrite Hrun.
    + right. unfold call_exception. now rewrite Hrun.
  - destruct (reject_cases request C E st) as [[e [Hrun He]]|[Hrun Hacc]].
    + left. exists e. unfold call_exception, run_call. now rewrite Hrun.
    + right. unfold call_exception. now rewrite Hrun.
Qed.

Lemma remove_first_kept {A} (p : A -> bool) (l : list A) (x : A) :
  In x l -> p x = false -> In x (remove_first p l).
Proof.
  induction l as [|y ys IH]; simpl; [tauto|].
  intros [->|Hin] Hp.
  - rewrite Hp. now left.
  - destruct (p y); [assumption | right; auto].
Qed.

(** X1: a call that ends with an exception leaves both globals as they
    were, and the exception is an [HTTPException] with status 400, 401,
    403 or 404: no handler lets a [ValueError] or [KeyError] escape. *)
Theorem refused_call_changes_nothing (c : Call) (st : State) (e : Exception) :
  call_exception c st = Some e ->
  run_call c st = st /\ is_client_error e = true.
Proof.
  intros He. destruct (call_cases c st) as [[e' [He' [Hclient Hsame]]]|[Hnone _]].
  - rewrite He in He'. injection He' as <-. auto.
  - rewrite He in Hnone. discriminate.
Qed.

(** X2: when a call changes the entry of a capability in the registry,
    the caller is logged in and may administer that capability, and the
    capability is the one named in the call. *)
Theorem roster_change_needs_authority (c : Call) (st : State) (C' : string) :
  capabilities (run_call c st) !! C' <> capabilities st !! C' ->
  exists u : User,
    call_session c = Some u /\ call_capability c = C' /\ can_administer st u C' = true.
Proof.
  intros Hchange.
  destruct (call_cases c st) as [[e [_ [_ Hsame]]]|[_ Hacc]].
  - rewrite Hsame in Hchange. contradiction.
  - remember (run_call c st) as st' eqn:Hst'. clear Hst'.
    destruct Hacc as [u C E now st capability Hrole Hself Hcap Hreg Hfind
                     |u C E now st capability Hperm Hcap Hreg
                     |u C E st capability Hperm Hcap Hreg
                     |u C E st capability pending_request Hperm Hcap Hfind
                     |u C E st pending_request Hperm Hfind];
      simpl in *; try contradiction;
      (destruct (decide (C = C')) as [<-|Hne];
       [exists u; auto | rewrite lookup_insert_ne in Hchange by assumption; contradiction]).
Qed.

(** X3: when a call takes a pending request out of the list, the caller
    is logged in and may administer the capability named in the call, and
    the request is one for the pair named in the call. *)
Theorem pending_removal_needs_authority (c : Call) (st : State) (request : PendingRequest) :
  In request (pending_registration_requests st) ->
  ~ In request (pending_registration_requests (run_call c st)) ->
  exists u : User,
    call_session c = Some u /\
    can_administer st u (call_capability c) = true /\
    pending_matches (call_capability c) (call_email c) request = true.
Proof.
  intros Hin Hgone.
  destruct (call_cases c st) as [[e [_ [_ Hsame]]]|[_ Hacc]].
  - rewrite Hsame in Hgone. contradiction.
  - remember (run_call c st) as st' eqn:Hst'. clear Hst'.
    destruct Hacc as [u C E now st capability Hrole Hself Hcap Hreg Hfind
                     |u C E now st capability Hperm Hcap Hreg
                     |u C E st capability Hperm Hcap Hreg
                     |u C E st capability pending_request Hperm Hcap Hfind
                     |u C E st pending_request Hperm Hfind];
      simpl in *; try contradiction.
    + exfalso. apply Hgone. apply in_or_app. now left.
    + exists u. split; [reflexivity|]. split; [assumption|].
      destruct (pending_matches C E request) eqn:Hm; [reflexivity|].
      exfalso. apply Hgone. now apply remove_first_kept.
    + exists u. split; [reflexivity|]. split; [assumption|].
      destruct (pending_matches C E request) eqn:Hm; [reflexivity|].
      exfalso. apply Hgone. now apply remove_first_kept.
Qed.

(** X4: a call without a session changes nothing; a call by a caller who
    is not a practice lead either changes nothing or is a consultant's
    request for the caller's own email, which leaves the registry alone
    and appends one pending request carrying the caller's username. *)
Theorem non_lead_call_effect (c : Call) (st : State) :
  (call_session c = None -> run_call c st = st) /\
  (forall u : User,
      call_session c = Some u ->
      user_role u <> "practice_lead" ->
      run_call c st = st \/
      exists C E now : string,
        c = CallRegister (mkRequest (Some u)) C E now /\
        user_role u = "consultant" /\
        lower (user_email u) = lower E /\
        run_call c st
        = mkState (capabilities st)
            (pending_registration_requests st
             ++ [mkPendingRequest C E (user_username u) now])).
Proof.
  destruct (call_cases c st) as [[e [_ [_ Hsame]]]|[_ Hacc]]; [auto|].
  remember (run_call c st) as st' eqn:Hst'. clear Hst'.
  destruct Hacc as [u C E now st capability Hrole Hself Hcap Hreg Hfind
                   |u C E now st capability Hperm Hcap Hreg
                   |u C E st capability Hperm Hcap Hreg
                   |u C E st capability pending_request Hperm Hcap Hfind
                   |u C E st pending_request Hperm Hfind];
    simpl; (split; [discriminate|]); intros u' [= <-] Hnot;
    try (destruct (can_administer_true _ _ _ Hperm) as [Hlead _]; contradiction).
  right. exists C, E, now. auto.
Qed.

(** ** What the registry keeps *)

Lemma with_consultants_twice (capability : Capability) (l l' : list string) :
  with_consultants (with_consultants capability l) l' = with_consultants capability l'.
Proof. reflexivity. Qed.

Lemma with_consultants_same (capability : Capability) :
  with_consultants capability (consultants capability) = capability.
Proof. now destruct capability. Qed.

Lemma accepted_registry (c : Call) (st st' : State) :
  accepted c st st' ->
  capabilities st' = capabilities st \/
  exists (capability : Capability) (l : list string),
    capabilities st !! call_capability c = Some capability /\
    capabilities st'
    = <[call_capability c := with_consultants capability l]> (capabilities st) /\
    (roster_unique capability -> roster_unique (with_consultants capability l)).
Proof.
  intros [u C E now st0 capability Hrole Hself Hcap Hreg Hfind
         |u C E now st0 capability Hperm Hcap Hreg
         |u C E st0 capability Hperm Hcap Hreg
         |u C E st0 capability pending_request Hperm Hcap Hfind
         |u C E st0 pending_request Hperm Hfind]; simpl; auto; right.
  - exists capability, (consultants capability ++ [E]). split; [assumption|].
    split; [reflexivity|]. intros Huniq.
    pose proof (approved_roster_unique capability E Huniq) as H.
    unfold approved_roster in H. now rewrite Hreg in H.
  - exists capability, (remove_first (same_email E) (consultants capability)).
    split; [assumption|]. split; [reflexivity|].
    unfold roster_unique. simpl. generalize (consultants capability).
    induction l as [|y ys IH]; [trivial|]. simpl.
    rewrite !NoDup_cons. intros [Hnotin Hnd].
    destruct (same_email E y); [assumption|]. simpl. rewrite NoDup_cons.
    split; [|auto]. rewrite list_elem_of_In, in_map_iff in *.
    intros [z [Hz Hin]]. apply Hnotin. exists z. split; [assumption|].
    eapply remove_first_In; eassumption.
  - exists capability, (approved_roster capability E). split; [assumption|].
    split; [reflexivity|]. apply approved_roster_unique.
Qed.

Lemma run_call_registry (c : Call) (st : State) :
  capabilities (run_call c st) = capabilities st \/
  exists (capability : Capability) (l : list string),
    capabilities st !! call_capability c = Some capability /\
    capabilities (run_call c st)
    = <[call_capability c := with_consultants capability l]> (capabilities st) /\
    (roster_unique capability -> roster_unique (with_consultants capability l)).
Proof.
  destruct (call_cases c st) as [[e [_ [_ Hsame]]]|[_ Hacc]].
  - left. now rewrite Hsame.
  - now apply accepted_registry.
Qed.

(** X5: the registry of a reachable state has the keys of the seed, and
    each capability differs from its seed entry in the roster only: no
    capability is added or deleted and no practice area or other
    descriptive field is ever rewritten. *)
Theorem registry_shape_kept (st : State) (C : string) :
  reachable st ->
  match capabilities initial_state !! C with
  | None => capabilities st !! C = None
  | Some capability0 =>
      exists l : list string,
        capabilities st !! C = Some (with_consultants capability0 l)
  end.
Proof.
  induction 1 as [|st c _ IH].
  - destruct (capabilities initial_state !! C) as [capability0|]; [|reflexivity].
    exists (consultants capability0). now rewrite with_consultants_same.
  - destruct (run_call_registry c st) as [->|[capability [l [Hcap [-> _]]]]]; [exact IH|].
    destruct (decide (call_capability c = C)) as [HC|Hne].
    + rewrite HC in *. rewrite lookup_insert_eq.
      destruct (capabilities initial_state !! C) as [capability0|].
      * destruct IH as [l0 Hl0]. rewrite Hcap in Hl0. injection Hl0 as ->.
        exists l. now rewrite with_consultants_twice.
      * rewrite Hcap in IH. discriminate.
    + now rewrite lookup_insert_ne.
Qed.

Lemma lower_map_ascii (l : list string) :
  forallb Py.is_ascii l = true -> map lower l = map Py.lower_ascii l.
Proof.
  induction l as [|x xs IH]; [reflexivity|]. simpl.
  intros [Hx Hxs]%andb_true_iff. now rewrite (lower_ascii_text x Hx), IH.
Qed.

Lemma seed_rosters_unique (C : string) (capability : Capability) :
  capabilities initial_state !! C = Some capability -> roster_unique capability.
Proof.
  intros Hlook. apply elem_of_list_to_map_2, list_elem_of_In in Hlook.
  unfold seed in Hlook. simpl in Hlook. unfold roster_unique.
  repeat (destruct Hlook as [Hlook|Hlook];
          [injection Hlook as <- <-; cbn [consultants cloud_architecture digital_strategy];
           rewrite lower_map_ascii by reflexivity;
           apply (bool_decide_unpack _); vm_compute; exact I|]).
  destruct Hlook.
Qed.

(** X6: in every reachable state no roster holds an email twice,
    compared without regard to case. *)
Theorem rosters_unique (st : State) (C : string) (capability : Capability) :
  reachable st ->
  capabilities st !! C = Some capability ->
  roster_unique capability.
Proof.
  intros Hreach. revert C capability.
  induction Hreach as [|st c _ IH]; intros C capability Hlook.
  - eapply seed_rosters_unique; eassumption.
  - destruct (run_call_registry c st) as [Hsame|[capability0 [l [Hcap [Hnew Huniq]]]]].
    + rewrite Hsame in Hlook. eauto.
    + rewrite Hnew in Hlook. apply lookup_same_or_other in Hlook.
      destruct Hlook as [[-> ->]|[_ Hlook]]; eauto.
Qed.

(** ** Listing the pending requests *)

Lemma can_administer_eq (st : State) (u : User) (n : string) :
  can_administer st u n
  = match capabilities st !! n with
    | None => false
    | Some capability =>
        (user_role u =? "practice_lead")
        && (Py.contains "*" (user_practice_areas u)
            || Py.contains (practice_area capability) (user_practice_areas u))
    end.
Proof.
  unfold can_administer, has_practice_area_permission. run.
  destruct (capabilities st !! n) as [capability|]; [|reflexivity].
  destruct (user_role u =? "practice_lead"); simpl; [|reflexivity].
  destruct (Py.contains "*" _); reflexivity.
Qed.

Lemma filter_all {A} (p : A -> bool) (l : list A) :
  (forall x, In x l -> p x = true) -> List.filter p l = l.
Proof.
  induction l as [|x xs IH]; [reflexivity|]. intros H. simpl.
  rewrite (H x) by now left. f_equal. apply IH. intros y Hy. apply H. now right.
Qed.

(** X7: the list of pending requests is refused with 401 without a
    session and with 403 for a caller who is not a practice lead; for a
    practice lead it returns, changes nothing, and gives the whole list
    to a holder of the wildcard; when every pending request names a
    capability of the registry (as in all reachable states), what it
    returns is exactly the pending requests whose capability the caller
    may administer, in their order. *)
Theorem get_registration_requests_spec (request : Request) (st : State) :
  (session request = None ->
   get_registration_requests request st
   = (Raise (HTTPException 401 "Please log in first"), st)) /\
  (forall u : User,
      session request = Some u ->
      user_role u <> "practice_lead" ->
      get_registration_requests request st
      = (Raise (HTTPException 403 "Practice lead permissions are required"), st)) /\
  (forall u : User,
      session request = Some u ->
      user_role u = "practice_lead" ->
      exists shown : list PendingRequest,
        get_registration_requests request st = (Return shown, st) /\
        (In "*" (user_practice_areas u) -> shown = pending_registration_requests st) /\
        (pending_capabilities_exist st ->
         shown = List.filter (fun req => can_administer st u (req_capability_name req))
                   (pending_registration_requests st))).
Proof.
  destruct request as [s]. simpl.
  unfold get_registration_requests, require_practice_lead, get_authenticated_user.
  split; [intros ->; reflexivity|]. split.
  - intros u -> Hrole. run. apply String.eqb_neq in Hrole. now rewrite Hrole.
  - intros u -> Hrole. run. rewrite Hrole. simpl.
    destruct (Py.contains "*" (user_practice_areas u)) eqn:Hstar.
    + eexists. split; [reflexivity|]. split; [reflexivity|].
      intros Hexist. symmetry. apply filter_all. intros req Hin.
      destruct (Hexist _ Hin) as [capability Hcap].
      now rewrite can_administer_eq, Hcap, Hrole, Hstar.
    + eexists. split; [reflexivity|]. split.
      * intros Hin. apply contains_In in Hin. congruence.
      * intros _. apply filter_ext. intros req.
        rewrite can_administer_eq, Hrole, Hstar.
        destruct (capabilities st !! req_capability_name req); reflexivity.
Qed.

(** ** How the calls compose *)

Lemma can_administer_registry (st st' : State) (u : User) (n : string) :
  capabilities st' = capabilities st ->
  can_administer st' u n = can_administer st u n.
Proof. intros H. now rewrite !can_administer_eq, H. Qed.

Lemma can_administer_roster (st st' : State) (u : User) (n C : string)
    (capability : Capability) (l : list string) :
  capabilities st !! C = Some capability ->
  capabilities st' = <[C := with_consultants capability l]> (capabilities st) ->
  can_administer st' u n = can_administer st u n.
Proof.
  intros Hcap H. rewrite !can_administer_eq, H.
  destruct (decide (C = n)) as [<-|Hne].
  - now rewrite lookup_insert_eq, Hcap.
  - now rewrite lookup_insert_ne.
Qed.

Lemma submit_run (u : User) (C E now : string) (st : State) (capability : Capability) :
  user_role u = "consultant" ->
  lower (user_email u) = lower E ->
  capabilities st !! C = Some capability ->
  is_consultant_registered capability E = false ->
  find (pending_matches C E) (pending_registration_requests st) = None ->
  register_for_capability (mkRequest (Some u)) C E now st
  = (Return ("Registration request submitted for " +:+ E +:+ " on " +:+ C
             +:+ ". A practice lead must approve it."),
     mkState (capabilities st)
       (pending_registration_requests st
        ++ [mkPendingRequest C E (user_username u) now])).
Proof.
  intros Hrole Hself Hcap Hreg Hfind.
  unfold register_for_capability, get_authenticated_user, find_pending_request. run.
  rewrite Hcap, Hreg, Hrole, Hself. simpl. rewrite String.eqb_refl. simpl.
  now rewrite Hfind.
Qed.

Lemma lead_register_run (u : User) (C E now : string) (st : State)
    (capability : Capability) :
  can_administer st u C = true ->
  capabilities st !! C = Some capability ->
  is_consultant_registered capability E = false ->
  register_for_capability (mkRequest (Some u)) C E now st
  = (Return ("Registered " +:+ E +:+ " for " +:+ C),
     mkState (<[C := with_consultants capability (consultants capability ++ [E])]>
                (capabilities st))
       (pending_registration_requests st)).
Proof.
  intros Hperm Hcap Hreg. destruct (can_administer_true _ _ _ Hperm) as [Hrole _].
  unfold register_for_capability, get_authenticated_user. run.
  rewrite Hcap, Hreg, (practice_lead_not_consultant u Hrole), Hrole. simpl.
  rewrite has_practice_area_permission_run, Hperm. simpl.
  now rewrite (alter_consultants C capability).
Qed.

Lemma reject_authorized (u : User) (C E : string) (st : State)
    (pending_request : PendingRequest) :
  can_administer st u C = true ->
  find (pending_matches C E) (pending_registration_requests st) = Some pending_request ->
  reject_registration_request (mkRequest (Some u)) C E st
  = (Return ("Rejected registration request for " +:+ E +:+ " on " +:+ C),
     mkState (capabilities st)
       (remove_first (pending_matches C E) (pending_registration_requests st))).
Proof.
  intros Hperm Hfind.
  destruct (can_administer_true _ _ _ Hperm) as [Hrole [capability Hcap]].
  rewrite reject_run. unfold authorization_outcome. simpl.
  now rewrite Hrole, Hcap, Hperm, Hfind.
Qed.

Lemma request_not_found (u : User) (C E : string) (st : State) :
  can_administer st u C = true ->
  find (pending_matches C E) (pending_registration_requests st) = None ->
  approve_registration_request (mkRequest (Some u)) C E st
  = (Raise (HTTPException 404 "Pending registration request not found"), st) /\
  reject_registration_request (mkRequest (Some u)) C E st
  = (Raise (HTTPException 404 "Pending registration request not found"), st).
Proof.
  intros Hperm Hfind.
  destruct (can_administer_true _ _ _ Hperm) as [Hrole [capability Hcap]].
  assert (Hout : authorization_outcome (mkRequest (Some u)) C E st
                 = Raise (HTTPException 404 "Pending registration request not found")).
  { unfold authorization_outcome. simpl. now rewrite Hrole, Hcap, Hperm, Hfind. }
  split; [now apply approve_refused | now rewrite reject_run, Hout].
Qed.

Lemma find_appended {A} (p : A -> bool) (l : list A) (x : A) :
  find p l = None -> p x = true ->
  find p (l ++ [x]) = Some x /\ remove_first p (l ++ [x]) = l.
Proof.
  intros Hnone Hx. induction l as [|y ys IH]; simpl in *.
  - now rewrite Hx.
  - destruct (p y); [discriminate|]. destruct (IH Hnone) as [-> ->]. auto.
Qed.

Lemma new_request_matches (C E requested_by now : string) :
  pending_matches C E (mkPendingRequest C E requested_by now) = true.
Proof. unfold pending_matches. simpl. now rewrite !String.eqb_refl. Qed.

Lemma state_eta (st : State) :
  mkState (capabilities st) (pending_registration_requests st) = st.
Proof. now destruct st. Qed.

(** X8: a consultant's accepted request followed by its rejection by a
    practice lead who may administer the capability leaves both globals
    exactly as they were before the request. *)
Theorem submit_then_reject_restores
    (u lead : User) (C E now : string) (st : State) (capability : Capability) :
  user_role u = "consultant" ->
  lower (user_email u) = lower E ->
  capabilities st !! C = Some capability ->
  is_consultant_registered capability E = false ->
  find (pending_matches C E) (pending_registration_requests st) = None ->
  can_administer st lead C = true ->
  exists (msg : string) (st1 : State),
    register_for_capability (mkRequest (Some u)) C E now st = (Return msg, st1) /\
    pending st1 C E /\
    reject_registration_request (mkRequest (Some lead)) C E st1
    = (Return ("Rejected registration request for " +:+ E +:+ " on " +:+ C), st).
Proof.
  intros Hrole Hself Hcap Hreg Hfind Hperm.
  rewrite (submit_run u C E now st capability Hrole Hself Hcap Hreg Hfind).
  eexists _, _. split; [reflexivity|].
  destruct (find_appended (pending_matches C E) (pending_registration_requests st)
              (mkPendingRequest C E (user_username u) now) Hfind
              (new_request_matches C E _ _)) as [Hnew Hrest].
  split; [apply pending_find; eauto|].
  set (st1 := mkState _ _) in *.
  assert (Hperm1 : can_administer st1 lead C = true).
  { rewrite <- Hperm. now apply can_administer_registry. }
  rewrite (reject_authorized lead C E st1 _ Hperm1 Hnew).
  subst st1. simpl. now rewrite Hrest, state_eta.
Qed.

(** X9: a consultant's accepted request followed by its approval ends in
    the state that a direct registration of the same email by the
    practice lead gives. *)
Theorem submit_then_approve_registers
    (u lead : User) (C E now now' : string) (st : State) (capability : Capability) :
  user_role u = "consultant" ->
  lower (user_email u) = lower E ->
  capabilities st !! C = Some capability ->
  is_consultant_registered capability E = false ->
  find (pending_matches C E) (pending_registration_requests st) = None ->
  can_administer st lead C = true ->
  exists (msg msg1 msg2 : string) (st1 st2 : State),
    register_for_capability (mkRequest (Some u)) C E now st = (Return msg, st1) /\
    approve_registration_request (mkRequest (Some lead)) C E st1 = (Return msg1, st2) /\
    register_for_capability (mkRequest (Some lead)) C E now' st = (Return msg2, st2) /\
    registered st2 C E.
Proof.
  intros Hrole Hself Hcap Hreg Hfind Hperm.
  rewrite (submit_run u C E now st capability Hrole Hself Hcap Hreg Hfind).
  rewrite (lead_register_run lead C E now' st capability Hperm Hcap Hreg).
  destruct (find_appended (pending_matches C E) (pending_registration_requests st)
              (mkPendingRequest C E (user_username u) now) Hfind
              (new_request_matches C E _ _)) as [Hnew Hrest].
  eexists _, _, _, _, _. split; [reflexivity|].
  set (st1 := mkState _ (_ ++ _)) in *.
  assert (Hperm1 : can_administer st1 lead C = true).
  { rewrite <- Hperm. now apply can_administer_registry. }
  rewrite (approve_run lead C E st1 capability _ Hcap Hnew Hperm1).
  subst st1. simpl. rewrite Hrest. unfold approved_roster. rewrite Hreg.
  split; [reflexivity|]. split; [reflexivity|].
  eexists. simpl. split; [apply lookup_insert_eq|]. apply is_consultant_registered_app.
Qed.

Lemma remove_appended_email (l : list string) (E E' : string) :
  existsb (same_email E) l = false ->
  lower E' = lower E ->
  remove_first (same_email E') (l ++ [E]) = l.
Proof.
  intros Hnone Hlow. rewrite existsb_find in Hnone.
  destruct (find (same_email E) l) eqn:Hfind; [discriminate|].
  assert (Hsame : same_email E' = same_email E).
  { unfold same_email. now rewrite Hlow. }
  rewrite Hsame. apply find_appended; [assumption|].
  unfold same_email. apply String.eqb_refl.
Qed.

(** X10: a direct registration by a practice lead followed by the
    unregistration of the same email, however it is capitalized, leaves
    both globals exactly as they were before. *)
Theorem register_then_unregister_restores
    (lead lead' : User) (C E E' now : string) (st : State) (capability : Capability) :
  can_administer st lead C = true ->
  can_administer st lead' C = true ->
  capabilities st !! C = Some capability ->
  is_consultant_registered capability E = false ->
  lower E' = lower E ->
  exists (msg msg' : string) (st1 : State),
    register_for_capability (mkRequest (Some lead)) C E now st = (Return msg, st1) /\
    unregister_from_capability (mkRequest (Some lead')) C E' st1 = (Return msg', st).
Proof.
  intros Hperm Hperm' Hcap Hreg Hlow.
  rewrite (lead_register_run lead C E now st capability Hperm Hcap Hreg).
  eexists _, _, _. split; [reflexivity|].
  set (st1 := mkState _ _).
  assert (Hcap1 : capabilities st1 !! C
                  = Some (with_consultants capability (consultants capability ++ [E])))
    by apply lookup_insert_eq.
  assert (Hperm1 : can_administer st1 lead' C = true).
  { rewrite <- Hperm'. eapply can_administer_roster; [exact Hcap|reflexivity]. }
  rewrite (unregister_run lead' C E' st1 _ Hperm1 Hcap1).
  rewrite <- (registered_lower _ E E') by congruence.
  rewrite is_consultant_registered_app. f_equal. subst st1.
  cbn [capabilities pending_registration_requests].
  change (consultants (with_consultants capability (consultants capability ++ [E])))
    with (consultants capability ++ [E]).
  rewrite (remove_appended_email _ E E' Hreg Hlow), insert_insert_eq.
  rewrite with_consultants_twice, with_consultants_same, (insert_id _ _ _ Hcap).
  apply state_eta.
Qed.

(** X11: when the pending list has no duplicates (as in all reachable
    states), a request that has been approved or rejected is gone: a
    further approve or reject of the pair by a practice lead who may
    administer the capability raises the 404 of a missing request and
    changes nothing. *)
Theorem request_consumed_once (u u2 : User) (C E : string) (st : State) :
  pending_unique st ->
  can_administer st u C = true ->
  can_administer st u2 C = true ->
  pending st C E ->
  forall st1 : State,
    st1 = run_call (CallApprove (mkRequest (Some u)) C E) st \/
    st1 = run_call (CallReject (mkRequest (Some u)) C E) st ->
    approve_registration_request (mkRequest (Some u2)) C E st1
    = (Raise (HTTPException 404 "Pending registration request not found"), st1) /\
    reject_registration_request (mkRequest (Some u2)) C E st1
    = (Raise (HTTPException 404 "Pending registration request not found"), st1).
Proof.
  intros Huniq Hperm Hperm2 Hpend st1 Hst1.
  destruct (can_administer_true _ _ _ Hperm) as [_ [capability Hcap]].
  apply pending_find in Hpend. destruct Hpend as [pending_request Hfind].
  assert (Hst1' : pending_registration_requests st1
                  = remove_first (pending_matches C E) (pending_registration_requests st)
                  /\ can_administer st1 u2 C = true).
  { destruct Hst1 as [-> | ->]; simpl.
    - rewrite (approve_run u C E st capability pending_request Hcap Hfind Hperm).
      split; [reflexivity|]. rewrite <- Hperm2.
      eapply can_administer_roster; [exact Hcap|reflexivity].
    - rewrite (reject_authorized u C E st pending_request Hperm Hfind).
      split; [reflexivity|]. rewrite <- Hperm2. now apply can_administer_registry. }
  destruct Hst1' as [Hpending1 Hperm1].
  apply request_not_found; [assumption|].
  rewrite Hpending1. now apply remove_first_unique.
Qed.

Lemma remove_first_email_unique (l : list string) (E : string) :
  NoDup (map lower l) ->
  existsb (same_email E) (remove_first (same_email E) l) = false.
Proof.
  induction l as [|y ys IH]; [reflexivity|]. simpl.
  rewrite NoDup_cons, list_elem_of_In. intros [Hnotin Hnd].
  destruct (same_email E y) eqn:Hy.
  - apply not_true_iff_false. rewrite existsb_exists. intros [z [Hin Hz]].
    apply Hnotin. apply in_map_iff. exists z. split; [|assumption].
    unfold same_email in *. apply String.eqb_eq in Hy, Hz. congruence.
  - simpl. rewrite Hy. auto.
Qed.

(** X12: when the roster holds no email twice (as in all reachable
    states), an unregistered email is gone from the roster: a second
    unregistration raises the 400 of a consultant who is not registered
    and changes nothing. *)
Theorem unregister_twice_refused
    (u u2 : User) (C E : string) (st : State) (capability : Capability) :
  capabilities st !! C = Some capability ->
  roster_unique capability ->
  is_consultant_registered capability E = true ->
  can_administer st u C = true ->
  can_administer st u2 C = true ->
  exists (msg : string) (st1 : State),
    unregister_from_capability (mkRequest (Some u)) C E st = (Return msg, st1) /\
    ~ registered st1 C E /\
    unregister_from_capability (mkRequest (Some u2)) C E st1
    = (Raise (HTTPException 400 "Consultant is not registered for this capability"), st1).
Proof.
  intros Hcap Huniq Hreg Hperm Hperm2.
  rewrite (unregister_run u C E st capability Hperm Hcap), Hreg.
  eexists _, _. split; [reflexivity|].
  set (st1 := mkState _ _).
  set (capability1 := with_consultants capability
                        (remove_first (same_email E) (consultants capability))).
  assert (Hcap1 : capabilities st1 !! C = Some capability1) by apply lookup_insert_eq.
  assert (Hreg1 : is_consultant_registered capability1 E = false).
  { unfold is_consultant_registered, capability1. simpl.
    now apply remove_first_email_unique. }
  assert (Hperm1 : can_administer st1 u2 C = true).
  { rewrite <- Hperm2. eapply can_administer_roster; [exact Hcap|reflexivity]. }
  split.
  - intros [c [Hc Hregc]]. rewrite Hcap1 in Hc. injection Hc as <-. congruence.
  - now rewrite (unregister_run u2 C E st1 capability1 Hperm1 Hcap1), Hreg1.
Qed.

(** ** Sessions and stored hashes *)

Lemma split_length (n : nat) (s : string) :
  length (Py.split "$" n s) = S (Nat.min n (count_dollars s)).
Proof.
  revert n. induction s as [|c rest IH]; intros n.
  - simpl. now rewrite Nat.min_0_r.
  - destruct n as [|m]; [reflexivity|]. cbn [Py.split count_dollars].
    destruct (Ascii.eqb c "$").
    + cbn [length]. now rewrite IH.
    + specialize (IH (S m)).
      destruct (Py.split "$" (S m) rest) as [|piece pieces]; [discriminate IH|].
      exact IH.
Qed.

Section SessionFacts.

Variable pbkdf2_sha256 : string -> string -> Z -> string.

(** X13: [login] either returns the session made of the first credential
    whose username matches without regard to case, whose stored hash
    verifies the password, and stores that session; or it raises, and
    then the session of the client is what it was before, so a failed
    login does not log anybody out. *)
Theorem login_spec (users : list UserRecord) (request : Request) (payload : LoginRequest) :
  match login pbkdf2_sha256 users request payload with
  | (Return session_user, request') =>
      exists user : UserRecord,
        get_user_by_username users (login_username payload) = Some user /\
        verify_password pbkdf2_sha256 (cred_password_hash user) (login_password payload)
        = Return true /\
        session_user = session_of user /\
        request' = mkRequest (Some session_user)
  | (Raise e, request') => request' = request
  end.
Proof.
  unfold login.
  destruct (get_user_by_username users (login_username payload)) as [user|] eqn:Huser;
    [|reflexivity].
  destruct (verify_password _ _ _) as [[|]|e] eqn:Hverify; try reflexivity.
  exists user. auto.
Qed.

(** X14: with a stored hash of four fields, the known tag and a round
    count from 1 to [INT_MAX], the password whose derived digest in hex is
    the stored digest logs in: the session is stored, [who_am_i] then
    reports it, the handlers accept it as the caller, and after [logout]
    [who_am_i] reports nobody. *)
Theorem login_establishes_session
    (users : list UserRecord) (request : Request) (payload : LoginRequest)
    (user : UserRecord) (iterations salt digest : string) (n : Z) :
  get_user_by_username users (login_username payload) = Some user ->
  Py.split "$" 3 (cred_password_hash user) = ["pbkdf2_sha256"; iterations; salt; digest] ->
  int iterations = Some n ->
  1 <= n <= INT_MAX ->
  Py.hex (pbkdf2_sha256 (login_password payload) salt n) = digest ->
  exists request' : Request,
    login pbkdf2_sha256 users request payload = (Return (session_of user), request') /\
    who_am_i request' = (true, Some (session_of user)) /\
    (forall st : State,
        get_authenticated_user request' st = (Return (session_of user), st)) /\
    who_am_i (snd (logout request')) = (false, None).
Proof.
  intros Huser Hsplit Hint Hn Hdigest.
  assert (Hascii : Py.is_ascii digest = true) by (rewrite <- Hdigest; apply hex_is_ascii).
  unfold login. rewrite Huser.
  rewrite (verify_password_usable pbkdf2_sha256 _ _ _ _ _ _ Hsplit Hint Hn Hascii).
  rewrite Hdigest, String.eqb_refl.
  eexists. split; [reflexivity|]. repeat split.
Qed.

(** X15: when no credential has the username, compared without regard
    to case, [login] answers 401 whatever the password, does not look at
    any stored hash, and leaves the session as it was; this is so for
    every username when the credentials file is absent. *)
Theorem unknown_user_unauthorized
    (file : CredentialsFile) (request : Request) (payload : LoginRequest) :
  (forall user : UserRecord,
      In user (load_user_credentials file) ->
      lower (cred_username user) <> lower (login_username payload)) ->
  login pbkdf2_sha256 (load_user_credentials file) request payload
  = (Raise (HTTPException 401 "Invalid username or password"), request).
Proof.
  intros Hnone. unfold login, get_user_by_username.
  destruct (find _ _) as [user|] eqn:Hfind; [|reflexivity].
  apply find_some in Hfind. destruct Hfind as [Hin Heq].
  apply String.eqb_eq in Heq. destruct (Hnone user Hin Heq).
Qed.

(** X16: [verify_password] raises the 500 of an invalid credential
    configuration exactly when the stored hash has fewer than three [$]
    signs, whatever the password. *)
Theorem invalid_configuration_iff (stored_hash password : string) :
  verify_password pbkdf2_sha256 stored_hash password
  = Raise (HTTPException 500 "Invalid credential configuration")
  <-> (count_dollars stored_hash < 3)%nat.
Proof.
  pose proof (split_length 3 stored_hash) as Hlen.
  unfold verify_password, pbkdf2_hmac, compare_digest.
  destruct (Py.split "$" 3 stored_hash) as [|a [|i [|s [|d [|x rest]]]]];
    cbn [length] in Hlen; try (split; [intros _; lia | reflexivity]).
  split; [|lia]. intros Habs. exfalso.
  destruct (negb (a =? "pbkdf2_sha256")); [discriminate|].
  destruct (int i) as [k|]; [|discriminate].
  destruct (k <? LONG_MIN)%Z; [discriminate|].
  destruct (k <? 1)%Z; [discriminate|].
  destruct (INT_MAX <? k)%Z; [discriminate|].
  destruct (Py.is_ascii _ && Py.is_ascii d); discriminate.
Qed.

End SessionFacts.

(** X17: in every reachable state each pending request names a
    capability of the registry, so that the list of pending requests
    shows a practice lead exactly the requests the lead may approve. *)
Theorem reachable_pending_capabilities (st : State) (u : User) :
  reachable st ->
  user_role u = "practice_lead" ->
  pending_capabilities_exist st /\
  get_registration_requests (mkRequest (Some u)) st
  = (Return (List.filter (fun req => can_administer st u (req_capability_name req))
               (pending_registration_requests st)),
     st).
Proof.
  intros Hreach Hrole.
  destruct (reachable_well_formed st Hreach) as [_ Hexist]. split; [assumption|].
  unfold get_registration_requests, require_practice_lead, get_authenticated_user. run.
  rewrite Hrole. simpl.
  destruct (Py.contains "*" (user_practice_areas u)) eqn:Hstar; do 2 f_equal.
  - symmetry. apply filter_all. intros req Hin.
    destruct (Hexist _ Hin) as [capability Hcap].
    now rewrite can_administer_eq, Hcap, Hrole, Hstar.
  - apply filter_ext. intros req. rewrite can_administer_eq, Hrole, Hstar.
    destruct (capabilities st !! req_capability_name req); reflexivity.
Qed.

(** ** Two traces, for every interpreter *)

Lemma seed_cloud_architecture :
  capabilities initial_state !! "Cloud Architecture" = Some cloud_architecture.
Proof. vm_compute. reflexivity. Qed.

Lemma seed_digital_strategy :
  capabilities initial_state !! "Digital Strategy" = Some digital_strategy.
Proof. vm_compute. reflexivity. Qed.

Lemma dana_not_in_seed_roster :
  is_consultant_registered cloud_architecture "dana@slalom.com" = false.
Proof.
  unfold is_consultant_registered, same_email.
  cbn [consultants cloud_architecture existsb].
  rewrite !lower_ascii_text by reflexivity. reflexivity.
Qed.

(** After Dana's request and Tina's direct registration Dana is in the
    roster of Cloud Architecture and her request is still pending. *)
Lemma dana_registered_and_pending :
  registered dana_registered_too "Cloud Architecture" "dana@slalom.com" /\
  pending dana_registered_too "Cloud Architecture" "dana@slalom.com".
Proof.
  unfold dana_registered_too, dana_requested, run_call.
  rewrite (submit_run dana "Cloud Architecture" "dana@slalom.com" _ initial_state
             cloud_architecture eq_refl eq_refl seed_cloud_architecture
             dana_not_in_seed_roster eq_refl).
  cbn [snd]. set (st1 := mkState _ _).
  assert (Hperm : can_administer st1 tina "Cloud Architecture" = true).
  { rewrite can_administer_eq. subst st1. cbn [capabilities].
    rewrite seed_cloud_architecture. reflexivity. }
  rewrite (lead_register_run tina _ _ _ st1 cloud_architecture Hperm
             seed_cloud_architecture dana_not_in_seed_roster).
  cbn [snd]. split.
  - eexists. cbn [capabilities]. split; [apply lookup_insert_eq|].
    apply is_consultant_registered_app.
  - eexists. split; [|apply new_request_matches].
    subst st1. cbn [pending_registration_requests app]. now left.
Qed.

(** A round count that is not a number makes [login] raise the
    [ValueError] of [int], whatever the password. *)
Lemma bad_rounds_raise (pbkdf2_sha256 : string -> string -> Z -> string)
    (password : string) :
  login pbkdf2_sha256 [tina_bad_rounds] (mkRequest None) (mkLoginRequest "tina" password)
  = (Raise ValueError, mkRequest None).
Proof.
  unfold login, get_user_by_username.
  cbn [find login_username login_password cred_username cred_password_hash
         tina_bad_rounds].
  rewrite String.eqb_refl. unfold verify_password.
  change (Py.split "$" 3 (cred_password_hash tina_bad_rounds))
    with ["pbkdf2_sha256"; "abc"; "c2FsdA"; "00ff"].
  change (negb ("pbkdf2_sha256" =? "pbkdf2_sha256")) with false. cbv iota.
  rewrite (int_ascii_text "abc" eq_refl) by (simpl; lia).
  reflexivity.
Qed.

End Proofs.

(** * The statements at the seed data

    From here on the handlers run on ASCII text, where the two built-ins
    are known. *)

#[local] Existing Instance ascii_python.

(** C1 fails as stated: after Dana's request and Tina's direct
    registration, both reachable, Dana is in the roster of Cloud
    Architecture while her request is still pending; the state before
    Tina's call satisfied the invariant. *)
Lemma lead_register_breaks_never_both :
  reachable dana_registered_too /\
  never_registered_and_pending dana_requested /\
  ~ never_registered_and_pending dana_registered_too.
Proof.
  split; [repeat constructor|]. split; [apply dana_requested_never_both|].
  intros H. exact (H "Cloud Architecture" "dana@slalom.com" dana_registered_and_pending).
Qed.

(** C8 fails as stated: with four fields and the known tag but a round
    count that is not a number, a wrong password is answered by an
    uncaught [ValueError], not by the 401. *)
Lemma bad_rounds_not_unauthorized :
  ~ wrong_password_is_unauthorized four_fields_known_tag.
Proof.
  intros Hclaim.
  specialize (Hclaim sample_kdf [tina_bad_rounds] (mkRequest None)
                (mkLoginRequest "tina" "guess") tina_bad_rounds).
  rewrite (bad_rounds_raise sample_kdf "guess") in Hclaim. simpl fst in Hclaim.
  assert (Habs : @Raise User ValueError
                 = Raise (HTTPException 401 "Invalid username or password")).
  { apply Hclaim.
    - reflexivity.
    - exists "abc", "c2FsdA", "00ff". reflexivity.
    - discriminate. }
  discriminate Habs.
Qed.

(** ** The theorems at the seed data *)

(** Tina, whose practice area is Technology, may not administer Digital
    Strategy, whose practice area is Strategy; Omar, who holds the
    wildcard, may. *)
Lemma has_practice_area_permission_spec_witness :
  has_practice_area_permission tina "Digital Strategy" initial_state
  = (Return false, initial_state) /\
  has_practice_area_permission omar "Digital Strategy" initial_state
  = (Return true, initial_state).
Proof.
  split.
  - destruct (has_practice_area_permission_spec tina "Digital Strategy" initial_state)
      as [b [Hrun [_ Hiff]]].
    destruct b; [|exact Hrun]. exfalso.
    destruct (proj1 (Hiff digital_strategy seed_digital_strategy eq_refl) eq_refl)
      as [[H|[]]|[H|[]]]; discriminate H.
  - destruct (has_practice_area_permission_spec omar "Digital Strategy" initial_state)
      as [b [Hrun [_ Hiff]]].
    rewrite Hrun. do 2 f_equal.
    apply (Hiff digital_strategy seed_digital_strategy eq_refl). left. now left.
Defined.

(** Dana may not register Erin. *)
Lemma consultant_register_other_forbidden_witness :
  register_for_capability (mkRequest (Some dana)) "Cloud Architecture" "erin@slalom.com"
    "2025-01-01T09:00:00+00:00" initial_state
  = (Raise (HTTPException 403 "Consultants can only request registration for themselves"),
     initial_state).
Proof.
  apply (consultant_register_other_forbidden dana "Cloud Architecture" "erin@slalom.com"
           "2025-01-01T09:00:00+00:00" initial_state cloud_architecture).
  - exact seed_cloud_architecture.
  - reflexivity.
  - reflexivity.
  - discriminate.
Defined.

(** Dana learns that Alice is registered. *)
Lemma consultant_register_other_registered_witness :
  register_for_capability (mkRequest (Some dana)) "Cloud Architecture"
    "Alice.Smith@slalom.com" "2025-01-01T09:00:00+00:00" initial_state
  = (Raise (HTTPException 400 "Consultant is already registered for this capability"),
     initial_state).
Proof.
  apply (consultant_register_other_registered dana "Cloud Architecture"
           "Alice.Smith@slalom.com" "2025-01-01T09:00:00+00:00" initial_state
           cloud_architecture).
  - exact seed_cloud_architecture.
  - reflexivity.
  - reflexivity.
  - discriminate.
Defined.

(** After Tina has registered Dana, Dana's own request is a duplicate. *)
Lemma lead_register_then_conflict_witness :
  register_for_capability (mkRequest (Some dana)) "Cloud Architecture" "dana@slalom.com"
    "2025-01-01T11:00:00+00:00" dana_registered
  = (Raise (HTTPException 400 "Consultant is already registered for this capability"),
     dana_registered).
Proof.
  destruct (lead_register_then_conflict tina "Cloud Architecture" "dana@slalom.com"
              "2025-01-01T10:00:00+00:00"
              "Registered dana@slalom.com for Cloud Architecture"
              initial_state dana_registered)
    as [capability [capability1 [_ [_ [_ [_ [_ Hsecond]]]]]]].
  - reflexivity.
  - vm_compute. reflexivity.
  - apply Hsecond.
Defined.

(** Tina approves Dana's request. *)
Lemma approve_pending_request_witness :
  exists (msg : string) (st' : State),
    approve_registration_request (mkRequest (Some tina)) "Cloud Architecture"
      "dana@slalom.com" dana_requested = (Return msg, st') /\
    pending_registration_requests st' = [].
Proof.
  destruct (approve_pending_request tina "Cloud Architecture" "dana@slalom.com"
              dana_requested)
    as [msg [st' [capability [capability' [Hrun [_ [_ [Hpending _]]]]]]]].
  - vm_compute. reflexivity.
  - apply pending_iff. vm_compute. reflexivity.
  - exists msg, st'. split; [exact Hrun | exact Hpending].
Defined.

(** Dana asks a second time. *)
Lemma pending_requests_unique_witness :
  exists capability : Capability,
    capabilities dana_requested !! "Cloud Architecture" = Some capability /\
    register_for_capability (mkRequest (Some dana)) "Cloud Architecture" "Dana@Slalom.com"
      "2025-01-01T11:00:00+00:00" dana_requested
    = (Raise (HTTPException 400
                (if is_consultant_registered capability "Dana@Slalom.com"
                 then "Consultant is already registered for this capability"
                 else "A pending registration request already exists")),
       dana_requested).
Proof.
  apply (proj2 (pending_requests_unique dana_requested
                  (reachable_step initial_state _ reachable_init))
           dana "Cloud Architecture" "Dana@Slalom.com" "2025-01-01T11:00:00+00:00").
  - reflexivity.
  - reflexivity.
  - apply pending_iff. vm_compute. reflexivity.
Defined.

(** Approving Dana's request keeps the invariant. *)
Lemma never_both_preserved_witness :
  never_registered_and_pending
    (run_call (CallApprove (mkRequest (Some tina)) "Cloud Architecture" "dana@slalom.com")
       dana_requested).
Proof.
  apply never_both_preserved.
  - exact (reachable_step initial_state _ reachable_init).
  - exact dana_requested_never_both.
  - intros [u [C [E [now [Hc _]]]]]. discriminate Hc.
Defined.


(** Tina rejects Dana's request. *)
Lemma reject_removes_request_only_witness :
  fst (reject_registration_request (mkRequest (Some tina)) "Cloud Architecture"
         "dana@slalom.com" dana_requested) 
  = Return "Rejected registration request for dana@slalom.com on Cloud Architecture" /\
  capabilities (snd (reject_registration_request (mkRequest (Some tina))
                       "Cloud Architecture" "dana@slalom.com" dana_requested))
  = capabilities dana_requested.
Proof.
  destruct (reject_removes_request_only (mkRequest (Some tina)) "Cloud Architecture"
              "dana@slalom.com" dana_requested) as [Hframe [_ [_ Hdone]]].
  split; [|exact Hframe].
  apply (Hdone tina).
  - reflexivity.
  - vm_compute. reflexivity.
  - apply pending_iff. vm_compute. reflexivity.
Defined.

(** A wrong password against a usable hash. *)
Lemma stored_hash_outcomes_witness :
  login sample_kdf [tina_credential] (mkRequest None) (mkLoginRequest "Tina" "guess")
  = (Raise (HTTPException 401 "Invalid username or password"), mkRequest None).
Proof.
  apply (proj1 (stored_hash_outcomes sample_kdf) [tina_credential] (mkRequest None)
           (mkLoginRequest "Tina" "guess") tina_credential "260000" "c2FsdA" "00ff" 260000).
  - reflexivity.
  - reflexivity.
  - reflexivity.
  - unfold INT_MAX. lia.
  - reflexivity.
  - discriminate.
Defined.

(** ** The further properties at the seed data *)

Lemma dana_requested_reachable : reachable dana_requested.
Proof. exact (reachable_step initial_state _ reachable_init). Qed.

Lemma dana_registered_too_reachable : reachable dana_registered_too.
Proof. exact (reachable_step dana_requested _ dana_requested_reachable). Qed.

(** Dana's attempt to register Erin changes nothing. *)
Lemma refused_call_changes_nothing_witness :
  run_call (CallRegister (mkRequest (Some dana)) "Cloud Architecture" "erin@slalom.com"
              "2025-01-01T09:00:00+00:00") initial_state
  = initial_state.
Proof.
  apply (refused_call_changes_nothing _ initial_state
           (HTTPException 403 "Consultants can only request registration for themselves")).
  vm_compute. reflexivity.
Defined.

(** Tina's registration of Dana changes the entry of Cloud Architecture. *)
Lemma roster_change_needs_authority_witness :
  exists u : User,
    call_session (CallRegister (mkRequest (Some tina)) "Cloud Architecture"
                    "dana@slalom.com" "2025-01-01T10:00:00+00:00") = Some u /\
    call_capability (CallRegister (mkRequest (Some tina)) "Cloud Architecture"
                       "dana@slalom.com" "2025-01-01T10:00:00+00:00")
    = "Cloud Architecture" /\
    can_administer initial_state u "Cloud Architecture" = true.
Proof.
  apply (roster_change_needs_authority _ initial_state "Cloud Architecture").
  vm_compute. discriminate.
Defined.

(** Tina's rejection takes Dana's request out of the list. *)
Lemma pending_removal_needs_authority_witness :
  exists u : User,
    Some tina = Some u /\
    can_administer dana_requested u "Cloud Architecture" = true /\
    pending_matches "Cloud Architecture" "dana@slalom.com"
      (mkPendingRequest "Cloud Architecture" "dana@slalom.com" "dana"
         "2025-01-01T09:00:00+00:00") = true.
Proof.
  apply (pending_removal_needs_authority
           (CallReject (mkRequest (Some tina)) "Cloud Architecture" "dana@slalom.com")
           dana_requested).
  - vm_compute. left. reflexivity.
  - vm_compute. intros [].
Defined.

(** Dana's calls: the request for herself is appended. *)
Lemma non_lead_call_effect_witness :
  run_call (CallUnregister (mkRequest None) "Cloud Architecture" "alice.smith@slalom.com")
    initial_state = initial_state.
Proof.
  apply (proj1 (non_lead_call_effect
                  (CallUnregister (mkRequest None) "Cloud Architecture"
                     "alice.smith@slalom.com") initial_state)).
  reflexivity.
Defined.

(** Cloud Architecture after Dana's request and Tina's registration. *)
Lemma registry_shape_kept_witness :
  exists l : list string,
    capabilities dana_registered_too !! "Cloud Architecture"
    = Some (with_consultants cloud_architecture l).
Proof.
  pose proof (registry_shape_kept dana_registered_too "Cloud Architecture"
                dana_registered_too_reachable) as H.
  rewrite seed_cloud_architecture in H. exact H.
Defined.

Lemma rosters_unique_witness :
  roster_unique
    (with_consultants cloud_architecture
       ["alice.smith@slalom.com"; "bob.johnson@slalom.com"; "dana@slalom.com"]).
Proof.
  apply (rosters_unique dana_registered_too "Cloud Architecture").
  - exact dana_registered_too_reachable.
  - vm_compute. reflexivity.
Defined.

(** Tina, whose practice area is Technology, sees Dana's request for
    Cloud Architecture and not the one for Digital Strategy. *)
Lemma get_registration_requests_spec_witness :
  get_registration_requests (mkRequest (Some tina)) dana_requested_twice
  = (Return [mkPendingRequest "Cloud Architecture" "dana@slalom.com" "dana"
               "2025-01-01T09:00:00+00:00"],
     dana_requested_twice).
Proof.
  destruct (get_registration_requests_spec (mkRequest (Some tina)) dana_requested_twice)
    as [_ [_ Hlead]].
  destruct (Hlead tina eq_refl eq_refl) as [shown [Hrun [_ Hshown]]].
  rewrite Hrun. do 2 f_equal. rewrite Hshown; [vm_compute; reflexivity|].
  intros request Hin. vm_compute in Hin.
  destruct Hin as [<-|[<-|[]]]; vm_compute; eauto.
Defined.

Lemma submit_then_reject_restores_witness :
  exists (msg : string) (st1 : State),
    register_for_capability (mkRequest (Some dana)) "Cloud Architecture" "Dana@Slalom.com"
      "2025-01-01T09:00:00+00:00" initial_state = (Return msg, st1) /\
    pending st1 "Cloud Architecture" "Dana@Slalom.com" /\
    reject_registration_request (mkRequest (Some tina)) "Cloud Architecture"
      "Dana@Slalom.com" st1 
    = (Return "Rejected registration request for Dana@Slalom.com on Cloud Architecture",
       initial_state).
Proof.
  apply (submit_then_reject_restores dana tina "Cloud Architecture" "Dana@Slalom.com"
           "2025-01-01T09:00:00+00:00" initial_state cloud_architecture).
  - reflexivity.
  - reflexivity.
  - exact seed_cloud_architecture.
  - reflexivity.
  - reflexivity.
  - vm_compute. reflexivity.
Defined.

Lemma submit_then_approve_registers_witness :
  exists (msg msg1 msg2 : string) (st1 st2 : State),
    register_for_capability (mkRequest (Some dana)) "Cloud Architecture" "dana@slalom.com"
      "2025-01-01T09:00:00+00:00" initial_state = (Return msg, st1) /\
    approve_registration_request (mkRequest (Some tina)) "Cloud Architecture"
      "dana@slalom.com" st1 = (Return msg1, st2) /\
    register_for_capability (mkRequest (Some tina)) "Cloud Architecture" "dana@slalom.com"
      "2025-01-01T10:00:00+00:00" initial_state = (Return msg2, st2) /\
    registered st2 "Cloud Architecture" "dana@slalom.com".
Proof.
  apply (submit_then_approve_registers dana tina "Cloud Architecture" "dana@slalom.com"
           "2025-01-01T09:00:00+00:00" "2025-01-01T10:00:00+00:00" initial_state
           cloud_architecture).
  - reflexivity.
  - reflexivity.
  - exact seed_cloud_architecture.
  - reflexivity.
  - reflexivity.
  - vm_compute. reflexivity.
Defined.

Lemma register_then_unregister_restores_witness :
  exists (msg msg' : string) (st1 : State),
    register_for_capability (mkRequest (Some tina)) "Cloud Architecture" "dana@slalom.com"
      "2025-01-01T10:00:00+00:00" initial_state = (Return msg, st1) /\
    unregister_from_capability (mkRequest (Some omar)) "Cloud Architecture"
      "DANA@slalom.com" st1 = (Return msg', initial_state).
Proof.
  apply (register_then_unregister_restores tina omar "Cloud Architecture"
           "dana@slalom.com" "DANA@slalom.com" "2025-01-01T10:00:00+00:00"
           initial_state cloud_architecture).
  - vm_compute. reflexivity.
  - vm_compute. reflexivity.
  - exact seed_cloud_architecture.
  - reflexivity.
  - reflexivity.
Defined.

Lemma request_consumed_once_witness :
  approve_registration_request (mkRequest (Some omar)) "Cloud Architecture"
    "dana@slalom.com"
    (run_call (CallApprove (mkRequest (Some tina)) "Cloud Architecture" "dana@slalom.com")
       dana_requested)
  = (Raise (HTTPException 404 "Pending registration request not found"),
     run_call (CallApprove (mkRequest (Some tina)) "Cloud Architecture" "dana@slalom.com")
       dana_requested).
Proof.
  apply (request_consumed_once tina omar "Cloud Architecture" "dana@slalom.com"
           dana_requested).
  - exact (proj1 (reachable_well_formed _ dana_requested_reachable)).
  - vm_compute. reflexivity.
  - vm_compute. reflexivity.
  - apply pending_iff. vm_compute. reflexivity.
  - left. reflexivity.
Defined.

Lemma unregister_twice_refused_witness :
  exists (msg : string) (st1 : State),
    unregister_from_capability (mkRequest (Some tina)) "Cloud Architecture"
      "Alice.Smith@slalom.com" initial_state = (Return msg, st1) /\
    ~ registered st1 "Cloud Architecture" "Alice.Smith@slalom.com" /\
    unregister_from_capability (mkRequest (Some omar)) "Cloud Architecture"
      "Alice.Smith@slalom.com" st1
    = (Raise (HTTPException 400 "Consultant is not registered for this capability"), st1).
Proof.
  apply (unregister_twice_refused tina omar "Cloud Architecture" "Alice.Smith@slalom.com"
           initial_state cloud_architecture).
  - exact seed_cloud_architecture.
  - exact (seed_rosters_unique _ _ seed_cloud_architecture).
  - reflexivity.
  - vm_compute. reflexivity.
  - vm_compute. reflexivity.
Defined.

Lemma login_establishes_session_witness :
  exists request' : Request,
    login sample_kdf [tina_matching] (mkRequest None) (mkLoginRequest "TINA" "secret")
    = (Return (session_of tina_matching), request') /\
    who_am_i request' = (true, Some (session_of tina_matching)) /\
    (forall st : State,
        get_authenticated_user request' st = (Return (session_of tina_matching), st)) /\
    who_am_i (snd (logout request')) = (false, None).
Proof.
  apply (login_establishes_session sample_kdf [tina_matching] (mkRequest None)
           (mkLoginRequest "TINA" "secret") tina_matching "260000" "c2FsdA" "00" 260000).
  - reflexivity.
  - reflexivity.
  - reflexivity.
  - unfold INT_MAX. lia.
  - reflexivity.
Defined.

Lemma unknown_user_unauthorized_witness :
  login sample_kdf (load_user_credentials FileAbsent) (mkRequest (Some dana))
    (mkLoginRequest "tina" "secret")
  = (Raise (HTTPException 401 "Invalid username or password"), mkRequest (Some dana)).
Proof.
  apply (unknown_user_unauthorized sample_kdf FileAbsent).
  intros user [].
Defined.

Lemma reachable_pending_capabilities_witness :
  pending_capabilities_exist dana_requested /\
  get_registration_requests (mkRequest (Some omar)) dana_requested
  = (Return (List.filter
               (fun req => can_administer dana_requested omar (req_capability_name req))
               (pending_registration_requests dana_requested)),
     dana_requested).
Proof.
  apply (reachable_pending_capabilities dana_requested omar).
  - exact dana_requested_reachable.
  - reflexivity.
Defined.
